(** * The Meson front end: lexer, parser, comment attacher, fixed-style formatter

    A shallow embedding of [mesonbuild/mparser.py] and
    [mesonbuild/ast/formatter.py].

    Conventions of the embedding:
    - Python [int] is [Z]; Python [str] is [string], read as a sequence of
      code points below 256 (offsets count characters, as Python's do);
    - an exception is a value of [Exception], carried by [Raise];
    - [Stuck] marks the border of the model: fuel ran out, or an escape
      sequence denotes a code point the 8-bit alphabet cannot hold, or names
      a character ([\N{...}], which needs Python's table of names);
    - the object heap is explicit: every AST node carries the identity
      [node_id] it was allocated with, and the attributes that the parser
      mutates after construction ([bytespan], the three comment lists) live in
      a store indexed by that identity, so that a node reachable through two
      references is updated for both. *)

From Stdlib Require Import ZArith List String Ascii Bool Lia DecimalString.
From stdpp Require Import base strings gmap.
Import ListNotations.
Open Scope string_scope.
Open Scope list_scope.
Open Scope Z_scope.

(** ** Exceptions and results *)

Inductive Exception : Type :=
| ParseException (text line : string) (lineno colno : Z)
| BlockParseException (text line : string) (lineno colno : Z)
    (start_line : string) (start_lineno start_colno : Z)
| MesonException (msg : string)
| AssertionError
| TypeError.

Inductive result (A : Type) : Type :=
| Ok (a : A)
| Raise (e : Exception)
| Stuck.
Arguments Ok {A} a.
Arguments Raise {A} e.
Arguments Stuck {A}.

(** ** Characters and Python string helpers *)

Definition LF : ascii := "010"%char.
Definition TAB : ascii := "009"%char.
Definition DQUOTE : ascii := "034"%char.
Definition SQUOTE : ascii := "'"%char.
Definition BACKSLASH : ascii := "\"%char.

Definition chr (c : ascii) : string := String c EmptyString.

Definition in_range (lo hi c : ascii) : bool :=
  ((N_of_ascii lo <=? N_of_ascii c) && (N_of_ascii c <=? N_of_ascii hi))%N.

Definition is_char (a c : ascii) : bool := Ascii.eqb a c.

Definition len (s : string) : Z := Z.of_nat (String.length s).

Fixpoint drop_str (n : nat) (s : string) : string :=
  match n, s with
  | O, _ => s
  | S n', String _ r => drop_str n' r
  | S _, EmptyString => EmptyString
  end.

(** [s[a:b]] for [0 <= a]; a negative [b] counts from the end. *)
Definition py_slice (s : string) (a b : Z) : string :=
  let n := len s in
  let b' := if b <? 0 then Z.max 0 (n + b) else Z.min b n in
  let a' := Z.min a n in
  if a' <? b' then substring (Z.to_nat a') (Z.to_nat (b' - a')) s else EmptyString.

(** [s.find(c, start)]: index of the first [c] at or after [start], or -1. *)
Fixpoint find_char_from (c : ascii) (s : string) (i : Z) : Z :=
  match s with
  | EmptyString => -1
  | String x r => if is_char c x then i else find_char_from c r (i + 1)
  end.

Definition py_find (s : string) (c : ascii) (start : Z) : Z :=
  find_char_from c (drop_str (Z.to_nat start) s) start.

Fixpoint contains_char (c : ascii) (s : string) : bool :=
  match s with
  | EmptyString => false
  | String x r => is_char c x || contains_char c r
  end.

(** [s.split('\n')], as a non-empty list of pieces. *)
Fixpoint split_lines_aux (s : string) (cur : string) : list string :=
  match s with
  | EmptyString => [cur]
  | String x r =>
      if is_char LF x then cur :: split_lines_aux r EmptyString
      else split_lines_aux r (cur +:+ chr x)
  end.

Definition split_lines (s : string) : list string := split_lines_aux s EmptyString.

Fixpoint repeat_str (s : string) (n : nat) : string :=
  match n with
  | O => EmptyString
  | S n' => s +:+ repeat_str s n'
  end.

Fixpoint join (sep : string) (l : list string) : string :=
  match l with
  | [] => EmptyString
  | [x] => x
  | x :: r => x +:+ sep +:+ join sep r
  end.

(** [str(n)] for an integer. *)
Definition str_of_int (n : Z) : string := NilEmpty.string_of_int (Z.to_int n).

Definition mem_str (s : string) (l : list string) : bool :=
  existsb (String.eqb s) l.

(** ** Tokens and comments *)

Inductive TokenValue : Type :=
| VNone
| VBool (b : bool)
| VInt (n : Z)
| VStr (s : string).

Record Token : Type := mkToken {
  tid : string;
  t_filename : string;
  t_line_start : Z;
  t_lineno : Z;
  t_colno : Z;
  t_bytespan : Z * Z;
  t_value : TokenValue
}.

Record Comment : Type := mkComment {
  c_line_start : Z;
  c_lineno : Z;
  c_colno : Z;
  c_bytespan : Z * Z;
  c_text : string
}.

(** [str(ParseException(text, line, lineno, colno))] *)
Definition ParseException_str (text line : string) (colno : Z) : string :=
  text +:+ chr LF +:+ line +:+ chr LF +:+ repeat_str " " (Z.to_nat colno) +:+ "^".

(** ** Regular expressions of the token specification

    Each matcher takes the text from the current position on and returns the
    length of the match.  None of the expressions needs backtracking: the
    alternatives inside each repetition start with different characters. *)

Definition matcher : Type := string -> option nat.

Definition lit (p : string) : matcher :=
  fun s => if String.prefix p s then Some (String.length p) else None.

Fixpoint span_while (p : ascii -> bool) (s : string) : nat :=
  match s with
  | String c r => if p c then S (span_while p r) else O
  | EmptyString => O
  end.

Definition is_digit (c : ascii) : bool := in_range "0" "9" c.
Definition is_bin (c : ascii) : bool := in_range "0" "1" c.
Definition is_oct (c : ascii) : bool := in_range "0" "7" c.
Definition is_hex (c : ascii) : bool :=
  in_range "0" "9" c || in_range "a" "f" c || in_range "A" "F" c.
Definition is_id_start (c : ascii) : bool :=
  is_char "_" c || in_range "a" "z" c || in_range "A" "Z" c.
Definition is_id_char (c : ascii) : bool := is_id_start c || is_digit c.

(** [[ \t]] *)
Definition re_ignore : matcher :=
  fun s => match s with
           | String c _ => if is_char " " c || is_char TAB c then Some 1%nat else None
           | EmptyString => None
           end.

(** Position just past the first ['''] of [s]: the lazy [(.|\n)*?''']. *)
Fixpoint lazy_until_triple (s : string) : option nat :=
  if String.prefix "'''" s then Some 3%nat
  else match s with
       | String _ r => option_map S (lazy_until_triple r)
       | EmptyString => None
       end.

(** [([^'\\]|(\\.))*']: the body of a single-line literal and its closing
    quote; [.] does not match a newline, [[^'\\]] does. *)
Fixpoint single_body (s : string) : option nat :=
  match s with
  | EmptyString => None
  | String c r =>
      if is_char SQUOTE c then Some 1%nat
      else if is_char BACKSLASH c then
        match r with
        | String d r' =>
            if is_char LF d then None else option_map (fun n => S (S n)) (single_body r')
        | EmptyString => None
        end
      else option_map S (single_body r)
  end.

(** [f'''(.|\n)*?'''] *)
Definition re_multiline_fstring : matcher :=
  fun s => if String.prefix "f'''" s
           then option_map (fun n => (4 + n)%nat) (lazy_until_triple (drop_str 4 s))
           else None.

(** [f'([^'\\]|(\\.))*'] *)
Definition re_fstring : matcher :=
  fun s => if String.prefix "f'" s
           then option_map (fun n => (2 + n)%nat) (single_body (drop_str 2 s))
           else None.

(** [[_a-zA-Z][_0-9a-zA-Z]*] *)
Definition re_id : matcher :=
  fun s => match s with
           | String c r => if is_id_start c then Some (S (span_while is_id_char r)) else None
           | EmptyString => None
           end.

(** [0<x><digits>+] for one of the prefixed number forms *)
Definition re_prefixed (lower upper : ascii) (digit : ascii -> bool) : matcher :=
  fun s => match s with
           | String z (String x r) =>
               if is_char "0" z && (is_char lower x || is_char upper x)
                  && (0 <? span_while digit r)%nat
               then Some (2 + span_while digit r)%nat else None
           | _ => None
           end.

Definition re_decimal : matcher :=
  fun s => match s with
           | String c r => if in_range "1" "9" c then Some (S (span_while is_digit r)) else None
           | EmptyString => None
           end.

Fixpoint first_of (ms : list matcher) : matcher :=
  fun s => match ms with
           | [] => None
           | m :: r => match m s with
                       | Some n => Some n
                       | None => first_of r s
                       end
           end.

(** [0[bB][01]+|0[oO][0-7]+|0[xX][0-9a-fA-F]+|0|[1-9]\d*] *)
Definition re_number : matcher :=
  first_of [re_prefixed "b" "B" is_bin; re_prefixed "o" "O" is_oct;
            re_prefixed "x" "X" is_hex; lit "0"; re_decimal].

(** ['''(.|\n)*?'''] *)
Definition re_multiline_string : matcher :=
  fun s => if String.prefix "'''" s
           then option_map (fun n => (3 + n)%nat) (lazy_until_triple (drop_str 3 s))
           else None.

(** [#.*] *)
Definition re_comment : matcher :=
  fun s => match s with
           | String c r =>
               if is_char "#" c then Some (S (span_while (fun x => negb (is_char LF x)) r))
               else None
           | EmptyString => None
           end.

(** ['([^'\\]|(\\.))*'] *)
Definition re_string : matcher :=
  fun s => match s with
           | String c r => if is_char SQUOTE c then option_map S (single_body r) else None
           | EmptyString => None
           end.

Definition token_specification : list (string * matcher) :=
  [ ("ignore", re_ignore);
    ("multiline_fstring", re_multiline_fstring);
    ("fstring", re_fstring);
    ("id", re_id);
    ("number", re_number);
    ("eol_cont", lit (chr BACKSLASH +:+ chr LF));
    ("eol", lit (chr LF));
    ("multiline_string", re_multiline_string);
    ("comment", re_comment);
    ("lparen", lit "(");
    ("rparen", lit ")");
    ("lbracket", lit "[");
    ("rbracket", lit "]");
    ("lcurl", lit "{");
    ("rcurl", lit "}");
    ("dblquote", lit (chr DQUOTE));
    ("string", re_string);
    ("comma", lit ",");
    ("plusassign", lit "+=");
    ("dot", lit ".");
    ("plus", lit "+");
    ("dash", lit "-");
    ("star", lit "*");
    ("percent", lit "%");
    ("fslash", lit "/");
    ("colon", lit ":");
    ("equal", lit "==");
    ("nequal", lit "!=");
    ("assign", lit "=");
    ("le", lit "<=");
    ("lt", lit "<");
    ("ge", lit ">=");
    ("gt", lit ">");
    ("questionmark", lit "?") ].

(** The [for (tid, reg) in self.token_specification] loop up to its first
    match. *)
Fixpoint first_match (spec : list (string * matcher)) (s : string)
  : option (string * nat) :=
  match spec with
  | [] => None
  | (t, m) :: r => match m s with
                   | Some n => Some (t, n)
                   | None => first_match r s
                   end
  end.

(** ** Escape sequences: [ESCAPE_SEQUENCE_SINGLE_RE.sub(decode_match, value)] *)

Definition digit_val (c : ascii) : Z :=
  let n := Z.of_N (N_of_ascii c) in
  if is_digit c then n - 48
  else if in_range "a" "f" c then n - 97 + 10
  else n - 65 + 10.

Fixpoint digits_val (base : Z) (s : string) (acc : Z) : Z :=
  match s with
  | EmptyString => acc
  | String c r => digits_val base r (acc * base + digit_val c)
  end.

(** [int(match_text, base=0)] on a text matched by [re_number] *)
Definition int_base0 (s : string) : Z :=
  match s with
  | String _ (String x r) =>
      if is_char "b" x || is_char "B" x then digits_val 2 r 0
      else if is_char "o" x || is_char "O" x then digits_val 8 r 0
      else if is_char "x" x || is_char "X" x then digits_val 16 r 0
      else digits_val 10 s 0
  | _ => digits_val 10 s 0
  end.

Inductive decoded : Type :=
| Decoded (s : string)
| MesonUnicodeDecodeError (matched : string)
| OutsideAlphabet.

(** What [codecs.decode(m, 'unicode_escape')] gives for a numeric escape [m]
    of value [v]. *)
Definition decode_code_point (m : string) (v : Z) : decoded :=
  if v <? 256 then Decoded (chr (ascii_of_N (Z.to_N v)))
  else if 1114111 <? v then MesonUnicodeDecodeError m
  else OutsideAlphabet.

Definition single_escape (c : ascii) : option ascii :=
  if is_char BACKSLASH c then Some BACKSLASH
  else if is_char SQUOTE c then Some SQUOTE
  else if is_char "a" c then Some "007"%char
  else if is_char "b" c then Some "008"%char
  else if is_char "f" c then Some "012"%char
  else if is_char "n" c then Some LF
  else if is_char "r" c then Some "013"%char
  else if is_char "t" c then Some TAB
  else if is_char "v" c then Some "011"%char
  else None.

(** [\<x><n hex digits>] at the head of [s] (which starts after the
    backslash): the digits. *)
Definition hex_escape (x : ascii) (n : nat) (s : string) : option string :=
  match s with
  | String c r =>
      if is_char x c && (n <=? span_while is_hex (substring 0 n r))%nat
      then Some (substring 0 n r) else None
  | EmptyString => None
  end.

(** The alternatives of [ESCAPE_SEQUENCE_SINGLE_RE] in their order, tried on
    the text [s] that follows a backslash: the length of the match (without
    the backslash) and its decoding. *)
Definition escape_at (s : string) : option (nat * decoded) :=
  match hex_escape "U" 8 s with
  | Some d => Some (9%nat, decode_code_point (chr BACKSLASH +:+ substring 0 9 s) (digits_val 16 d 0))
  | None =>
  match hex_escape "u" 4 s with
  | Some d => Some (5%nat, decode_code_point (chr BACKSLASH +:+ substring 0 5 s) (digits_val 16 d 0))
  | None =>
  match hex_escape "x" 2 s with
  | Some d => Some (3%nat, decode_code_point (chr BACKSLASH +:+ substring 0 3 s) (digits_val 16 d 0))
  | None =>
  let k := Nat.min 3 (span_while is_oct s) in
  if (0 <? k)%nat
  then Some (k, decode_code_point (chr BACKSLASH +:+ substring 0 k s) (digits_val 8 (substring 0 k s) 0))
  else
  let n := span_while (fun c => negb (is_char "}" c)) (drop_str 2 s) in
  if String.prefix "N{" s && (0 <? n)%nat && String.prefix "}" (drop_str (2 + n) s)
  then Some ((3 + n)%nat, OutsideAlphabet)
  else
  match s with
  | String c _ =>
      match single_escape c with
      | Some d => Some (1%nat, Decoded (chr d))
      | None => None
      end
  | EmptyString => None
  end
  end end end.

Fixpoint unescape (fuel : nat) (s : string) : decoded :=
  match fuel with
  | O => OutsideAlphabet
  | S fuel' =>
      match s with
      | EmptyString => Decoded EmptyString
      | String c r =>
          match (if is_char BACKSLASH c then escape_at r else None) with
          | Some (n, Decoded d) =>
              match unescape fuel' (drop_str n r) with
              | Decoded t => Decoded (d +:+ t)
              | other => other
              end
          | Some (_, other) => other
          | None =>
              match unescape fuel' r with
              | Decoded t => Decoded (String c t)
              | other => other
              end
          end
      end
  end.

(** ** The lexer *)

Module Lexer.

Record t : Type := mk {
  code : string;
  comments : list Comment;
  (* the locals of the generator [lex] *)
  line_start : Z;
  lineno : Z;
  loc : Z;
  par_count : Z;
  bracket_count : Z;
  curl_count : Z;
  col : Z
}.

Definition init (code : string) : t := mk code [] 0 1 0 0 0 0 0.

Definition keywords : list string :=
  ["true"; "false"; "if"; "else"; "elif"; "endif"; "and"; "or"; "not";
   "foreach"; "endforeach"; "in"; "continue"; "break"].

Definition future_keywords : list string := ["return"].

Definition getline (self : t) (line_start : Z) : string :=
  py_slice (code self) line_start (py_find (code self) LF line_start).

Definition set_pos (self : t) (loc col : Z) : t :=
  mk (code self) (comments self) (line_start self) (lineno self) loc
     (par_count self) (bracket_count self) (curl_count self) col.

Definition set_line (self : t) (lineno line_start : Z) : t :=
  mk (code self) (comments self) line_start lineno (loc self)
     (par_count self) (bracket_count self) (curl_count self) (col self).

Definition set_counts (self : t) (par bracket curl : Z) : t :=
  mk (code self) (comments self) (line_start self) (lineno self) (loc self)
     par bracket curl (col self).

Definition add_comment (self : t) (c : Comment) : t :=
  mk (code self) (comments self ++ [c]) (line_start self) (lineno self) (loc self)
     (par_count self) (bracket_count self) (curl_count self) (col self).

(** One turn of the [while] loop either yields a token or goes round again. *)
Inductive event : Type :=
| Yield (tok : Token)
| Continue.

Definition newline_warning (self : t) (lineno col : Z) : string :=
  ParseException_str
    ("Newline character in a string detected, use ''' (three single quotes) "
     +:+ "for multiline strings instead." +:+ chr LF
     +:+ "This will become a hard error in a future Meson release.")
    (getline self (line_start self)) col.

Definition future_keyword_warning (match_text : string) : string :=
  "Identifier '" +:+ match_text
  +:+ "' will become a reserved keyword in a future release. Please rename it.".

(** The body of the [while] loop of [lex]: the result is the event, the
    messages passed to [mlog.warning], and the lexer afterwards. *)
Definition lex_step (filename : string) (self : t)
  : result (event * list string * t) :=
  let rest := drop_str (Z.to_nat (loc self)) (code self) in
  match first_match token_specification rest with
  | None =>
      Raise (ParseException "lexer" (getline self (line_start self)) (lineno self) (col self))
  | Some (tid, n) =>
      let curline := lineno self in
      let curline_start := line_start self in
      let col := loc self - line_start self in
      let span_start := loc self in
      let loc := loc self + Z.of_nat n in
      let bytespan := (span_start, loc) in
      let match_text := substring 0 n rest in
      let self := set_pos self loc col in
      let token tid value := mkToken tid filename curline_start curline col bytespan value in
      if String.eqb tid "ignore" then Ok (Continue, [], self)
      else if String.eqb tid "lparen" then
        Ok (Yield (token tid VNone), [],
            set_counts self (par_count self + 1) (bracket_count self) (curl_count self))
      else if String.eqb tid "rparen" then
        Ok (Yield (token tid VNone), [],
            set_counts self (par_count self - 1) (bracket_count self) (curl_count self))
      else if String.eqb tid "lbracket" then
        Ok (Yield (token tid VNone), [],
            set_counts self (par_count self) (bracket_count self + 1) (curl_count self))
      else if String.eqb tid "rbracket" then
        Ok (Yield (token tid VNone), [],
            set_counts self (par_count self) (bracket_count self - 1) (curl_count self))
      else if String.eqb tid "lcurl" then
        Ok (Yield (token tid VNone), [],
            set_counts self (par_count self) (bracket_count self) (curl_count self + 1))
      else if String.eqb tid "rcurl" then
        Ok (Yield (token tid VNone), [],
            set_counts self (par_count self) (bracket_count self) (curl_count self - 1))
      else if String.eqb tid "dblquote" then
        Raise (ParseException "Double quotes are not supported. Use single quotes."
                 (getline self (line_start self)) (lineno self) col)
      else if mem_str tid ["string"; "fstring"] then
        let warned := if contains_char LF match_text
                      then [newline_warning self (lineno self) col] else [] in
        let value := py_slice match_text (if String.eqb tid "fstring" then 2 else 1) (-1) in
        match unescape (S (String.length value)) value with
        | Decoded value => Ok (Yield (token tid (VStr value)), warned, self)
        | MesonUnicodeDecodeError m =>
            Raise (MesonException ("Failed to parse escape sequence: '" +:+ m
                                   +:+ "' in string:" +:+ chr LF +:+ "  " +:+ match_text))
        | OutsideAlphabet => Stuck
        end
      else if mem_str tid ["multiline_string"; "multiline_fstring"] then
        let value := if String.eqb tid "multiline_string"
                     then py_slice match_text 3 (-3) else py_slice match_text 4 (-3) in
        let tid := if String.eqb tid "multiline_string" then "string" else tid in
        let lines := split_lines match_text in
        let self := if 1 <? Z.of_nat (length lines)
                    then set_line self (lineno self + (Z.of_nat (length lines) - 1))
                                  (loc - len (List.last lines EmptyString))
                    else self in
        Ok (Yield (token tid (VStr value)), [], self)
      else if String.eqb tid "number" then
        Ok (Yield (token tid (VInt (int_base0 match_text))), [], self)
      else if String.eqb tid "eol_cont" then
        Ok (Continue, [], set_line self (lineno self + 1) loc)
      else if String.eqb tid "eol" then
        let self := set_line self (lineno self + 1) loc in
        if (0 <? par_count self) || (0 <? bracket_count self) || (0 <? curl_count self)
        then Ok (Continue, [], self)
        else Ok (Yield (token tid VNone), [], self)
      else if String.eqb tid "comment" then
        Ok (Continue, [],
            add_comment self (mkComment curline_start curline col bytespan match_text))
      else if String.eqb tid "id" then
        if mem_str match_text keywords then Ok (Yield (token match_text VNone), [], self)
        else
          Ok (Yield (token tid (VStr match_text)),
              (if mem_str match_text future_keywords
               then [future_keyword_warning match_text] else []),
              self)
      else Ok (Yield (token tid VNone), [], self)
  end.

(** [next(stream)]: run the generator up to its next [yield]; [None] is
    [StopIteration]. *)
Fixpoint next_loop (fuel : nat) (filename : string) (self : t) (log : list string)
  : result (option Token * list string * t) :=
  match fuel with
  | O => Stuck
  | S fuel' =>
      if loc self <? len (code self) then
        match lex_step filename self with
        | Ok (Yield tok, w, self') => Ok (Some tok, log ++ w, self')
        | Ok (Continue, w, self') => next_loop fuel' filename self' (log ++ w)
        | Raise e => Raise e
        | Stuck => Stuck
        end
      else Ok (None, log, self)
  end.

Definition next (filename : string) (self : t)
  : result (option Token * list string * t) :=
  next_loop (S (String.length (code self))) filename self [].

(** [list(Lexer(code).lex(filename))], with the lexer as it is left. *)
Fixpoint lex_loop (fuel : nat) (filename : string) (self : t) (acc : list Token)
  : result (list Token * t) :=
  match fuel with
  | O => Stuck
  | S fuel' =>
      match next filename self with
      | Ok (Some tok, _, self') => lex_loop fuel' filename self' (acc ++ [tok])
      | Ok (None, _, self') => Ok (acc, self')
      | Raise e => Raise e
      | Stuck => Stuck
      end
  end.

Definition lex (code filename : string) : result (list Token * t) :=
  lex_loop (S (String.length code)) filename (init code) [].

End Lexer.

(** ** AST nodes

    [BaseNode] holds what [BaseNode.__init__] fixes at construction (the
    visitor scratch fields [level], [ast_id] and [condition_level] are left
    out); [Attrs] holds what is assigned later, in the heap. *)

Record BaseNode : Type := mkBaseNode {
  node_id : nat;
  lineno : Z;
  colno : Z;
  filename : string;
  end_lineno : Z;
  end_colno : Z
}.

Record Attrs : Type := mkAttrs {
  bytespan : option (Z * Z);
  pre_comments : list Comment;
  comments : list Comment;
  post_comments : list Comment
}.

(** The fields of an [ArgumentNode]; [kwargs] is a Python dict whose keys are
    nodes hashed by identity ([dataclass(eq=False)]), so every insertion adds
    an entry and the dict is the list of its insertions. *)
Record ArgList (N : Type) : Type := mkArgList {
  a_base : BaseNode;
  arguments : list N;
  commas : list Token;
  kwargs : list (N * N);
  order_error : bool
}.
Arguments mkArgList {N}.
Arguments a_base {N}.
Arguments arguments {N}.
Arguments commas {N}.
Arguments kwargs {N}.
Arguments order_error {N}.

#[local] Set Warnings "-register-all".

Inductive Node : Type :=
| BooleanNode (base : BaseNode) (value : bool)
| IdNode (base : BaseNode) (value : string)
| NumberNode (base : BaseNode) (value : Z)
| StringNode (base : BaseNode) (value : string)
| FormatStringNode (base : BaseNode) (value : string)
| MultilineFormatStringNode (base : BaseNode) (value : string)
| ContinueNode (base : BaseNode) (value : TokenValue)
| BreakNode (base : BaseNode) (value : TokenValue)
| ArgumentNode (a : ArgList Node)
| ArrayNode (base : BaseNode) (args : Node)
| DictNode (base : BaseNode) (args : Node)
| EmptyNode (base : BaseNode)
| OrNode (base : BaseNode) (left right : Node)
| AndNode (base : BaseNode) (left right : Node)
| ComparisonNode (base : BaseNode) (ctype : string) (left right : Node)
| ArithmeticNode (base : BaseNode) (operation : string) (left right : Node)
| NotNode (base : BaseNode) (value : Node)
| CodeBlockNode (base : BaseNode) (lines : list Node)
| IndexNode (base : BaseNode) (iobject index : Node)
| MethodNode (base : BaseNode) (source_object : Node) (name : string) (args : Node)
| FunctionNode (base : BaseNode) (func_name : string) (args : Node)
| AssignmentNode (base : BaseNode) (var_name : string) (value : Node)
| PlusAssignmentNode (base : BaseNode) (var_name : string) (value : Node)
| ForeachClauseNode (base : BaseNode) (varnames : list string) (items block : Node)
| IfNode (base : BaseNode) (condition block : Node)
| IfClauseNode (base : BaseNode) (ifs : list Node) (elseblock : Node)
| ParenthesizedNode (base : BaseNode) (inner : Node)
| UMinusNode (base : BaseNode) (value : Node)
| TernaryNode (base : BaseNode) (condition trueblock falseblock : Node).

Definition base_of (n : Node) : BaseNode :=
  match n with
  | BooleanNode b _ | IdNode b _ | NumberNode b _ | StringNode b _
  | FormatStringNode b _ | MultilineFormatStringNode b _
  | ContinueNode b _ | BreakNode b _ => b
  | ArgumentNode a => a_base a
  | ArrayNode b _ | DictNode b _ | EmptyNode b => b
  | OrNode b _ _ | AndNode b _ _ | ComparisonNode b _ _ _ | ArithmeticNode b _ _ _ => b
  | NotNode b _ | CodeBlockNode b _ | IndexNode b _ _ | MethodNode b _ _ _
  | FunctionNode b _ _ | AssignmentNode b _ _ | PlusAssignmentNode b _ _
  | ForeachClauseNode b _ _ _ | IfNode b _ _ | IfClauseNode b _ _
  | ParenthesizedNode b _ | UMinusNode b _ | TernaryNode b _ _ _ => b
  end.

Definition id_of (n : Node) : nat := node_id (base_of n).

(** [type(node).__name__] *)
Definition type_name (n : Node) : string :=
  match n with
  | BooleanNode _ _ => "BooleanNode"
  | IdNode _ _ => "IdNode"
  | NumberNode _ _ => "NumberNode"
  | StringNode _ _ => "StringNode"
  | FormatStringNode _ _ => "FormatStringNode"
  | MultilineFormatStringNode _ _ => "MultilineFormatStringNode"
  | ContinueNode _ _ => "ContinueNode"
  | BreakNode _ _ => "BreakNode"
  | ArgumentNode _ => "ArgumentNode"
  | ArrayNode _ _ => "ArrayNode"
  | DictNode _ _ => "DictNode"
  | EmptyNode _ => "EmptyNode"
  | OrNode _ _ _ => "OrNode"
  | AndNode _ _ _ => "AndNode"
  | ComparisonNode _ _ _ _ => "ComparisonNode"
  | ArithmeticNode _ _ _ _ => "ArithmeticNode"
  | NotNode _ _ => "NotNode"
  | CodeBlockNode _ _ => "CodeBlockNode"
  | IndexNode _ _ _ => "IndexNode"
  | MethodNode _ _ _ _ => "MethodNode"
  | FunctionNode _ _ _ => "FunctionNode"
  | AssignmentNode _ _ _ => "AssignmentNode"
  | PlusAssignmentNode _ _ _ => "PlusAssignmentNode"
  | ForeachClauseNode _ _ _ _ => "ForeachClauseNode"
  | IfNode _ _ _ => "IfNode"
  | IfClauseNode _ _ _ => "IfClauseNode"
  | ParenthesizedNode _ _ => "ParenthesizedNode"
  | UMinusNode _ _ => "UMinusNode"
  | TernaryNode _ _ _ _ => "TernaryNode"
  end.

Definition is_EmptyNode (n : Node) : bool :=
  match n with EmptyNode _ => true | _ => false end.

Definition is_IdNode (n : Node) : bool :=
  match n with IdNode _ _ => true | _ => false end.

(** The nodes an AST node refers to through its fields. *)
Definition children (n : Node) : list Node :=
  match n with
  | ArgumentNode a =>
      arguments a ++ flat_map (fun kv => [fst kv; snd kv]) (kwargs a)
  | ArrayNode _ args | DictNode _ args => [args]
  | OrNode _ l r | AndNode _ l r | ComparisonNode _ _ l r | ArithmeticNode _ _ l r => [l; r]
  | NotNode _ v | UMinusNode _ v | AssignmentNode _ _ v | PlusAssignmentNode _ _ v => [v]
  | CodeBlockNode _ lines => lines
  | IndexNode _ iobject index => [iobject; index]
  | MethodNode _ source_object _ args => [source_object; args]
  | FunctionNode _ _ args => [args]
  | ForeachClauseNode _ _ items block => [items; block]
  | IfNode _ condition block => [condition; block]
  | IfClauseNode _ ifs elseblock => ifs ++ [elseblock]
  | ParenthesizedNode _ inner => [inner]
  | TernaryNode _ c t f => [c; t; f]
  | _ => []
  end.

Definition comparison_map : list (string * string) :=
  [("equal", "=="); ("nequal", "!="); ("lt", "<"); ("le", "<=");
   ("gt", ">"); ("ge", ">="); ("in", "in"); ("notin", "not in")].

(** ** The parser: state, monad and primitives *)

Module Parser.

(** [lexer] and [lex_filename] stand for the generator [self.stream]; [heap]
    and [next_id] are the object heap of the AST nodes; [mlog] collects the
    messages given to [mlog.warning], in order.  [stack] has its top first.
    [nodes] is a Python set of nodes hashed by identity: here the identities in
    the order they were first added (Python iterates the set in an order of
    its own, so nothing below may depend on the order). *)
Record t : Type := mk {
  lexer : Lexer.t;
  lex_filename : string;
  current : Token;
  in_ternary : bool;
  stack : list Token;
  nodes : list nat;
  heap : gmap nat Attrs;
  next_id : nat;
  mlog : list string
}.

Definition M (A : Type) : Type := t -> result (A * t).

Definition ret {A : Type} (a : A) : M A := fun self => Ok (a, self).

Definition bind {A B : Type} (m : M A) (k : A -> M B) : M B :=
  fun self =>
    match m self with
    | Ok (a, self') => k a self'
    | Raise e => Raise e
    | Stuck => Stuck
    end.

Definition raise {A : Type} (e : Exception) : M A := fun _ => Raise e.

Definition stuck {A : Type} : M A := fun _ => Stuck.

Definition gets {A : Type} (f : t -> A) : M A := fun self => Ok (f self, self).

Definition modify (f : t -> t) : M unit := fun self => Ok (tt, f self).

End Parser.

Declare Scope parser_scope.
Delimit Scope parser_scope with parser.
Notation "x <- m ; k" := (Parser.bind m (fun x => k))
  (at level 20, m at level 100, k at level 200, only parsing) : parser_scope.
Notation "' p <- m ; k" := (Parser.bind m (fun x => let 'p := x in k))
  (at level 20, p pattern, m at level 100, k at level 200, only parsing) : parser_scope.
Notation "m ;; k" := (Parser.bind m (fun _ => k))
  (at level 100, k at level 200, only parsing, right associativity) : parser_scope.
Open Scope parser_scope.

Module ParserOps.
Import Parser.

Definition set_current (tok : Token) (lx : Lexer.t) (w : list string) (self : t) : t :=
  mk lx (lex_filename self) tok (in_ternary self) (stack self) (nodes self)
     (heap self) (next_id self) (mlog self ++ w).

Definition set_in_ternary (b : bool) (self : t) : t :=
  mk (lexer self) (lex_filename self) (current self) b (stack self) (nodes self)
     (heap self) (next_id self) (mlog self).

Definition set_stack (s : list Token) (self : t) : t :=
  mk (lexer self) (lex_filename self) (current self) (in_ternary self) s (nodes self)
     (heap self) (next_id self) (mlog self).

Definition set_heap (h : gmap nat Attrs) (next : nat) (self : t) : t :=
  mk (lexer self) (lex_filename self) (current self) (in_ternary self) (stack self)
     (nodes self) h next (mlog self).

Definition set_nodes (ns : list nat) (self : t) : t :=
  mk (lexer self) (lex_filename self) (current self) (in_ternary self) (stack self)
     ns (heap self) (next_id self) (mlog self).

Definition warning (msg : string) : M unit :=
  modify (fun self =>
    mk (lexer self) (lex_filename self) (current self) (in_ternary self) (stack self)
       (nodes self) (heap self) (next_id self) (mlog self ++ [msg])).

Definition eof_after (c : Token) : Token :=
  mkToken "eof" EmptyString (t_line_start c) (t_lineno c)
          (t_colno c + snd (t_bytespan c) - fst (t_bytespan c)) (0, 0) VNone.

Definition getsym : M unit :=
  fun self =>
    match Lexer.next (lex_filename self) (lexer self) with
    | Ok (Some tok, w, lx) => Ok (tt, set_current tok lx w self)
    | Ok (None, w, lx) => Ok (tt, set_current (eof_after (current self)) lx w self)
    | Raise e => Raise e
    | Stuck => Stuck
    end.

(** [Parser.__init__] *)
Definition init (code filename : string) : result t :=
  let self := mk (Lexer.init code) filename (mkToken "eof" EmptyString 0 0 0 (0, 0) VNone)
                 false [] [] ∅ 0%nat [] in
  match getsym self with
  | Ok (_, self) => Ok (set_nodes [] (set_stack [] (set_in_ternary false self)))
  | Raise e => Raise e
  | Stuck => Stuck
  end.

Definition begin : M unit :=
  modify (fun self => set_stack (current self :: stack self) self).

Definition empty_attrs : Attrs := mkAttrs None [] [] [].

Definition set_bytespan (span : Z * Z) (a : Attrs) : Attrs :=
  mkAttrs (Some span) (pre_comments a) (comments a) (post_comments a).

Definition add_node (i : nat) (ns : list nat) : list nat :=
  if existsb (Nat.eqb i) ns then ns else ns ++ [i].

(** [end]: named [end_], [end] being a keyword. *)
Definition end_ (node : Node) : M unit :=
  fun self =>
    match stack self with
    | [] => Raise AssertionError
    | token :: rest =>
        let span := (fst (t_bytespan token), fst (t_bytespan (current self))) in
        let i := id_of node in
        let h := <[ i := set_bytespan span (default empty_attrs (heap self !! i)) ]> (heap self) in
        Ok (tt, set_nodes (add_node i (nodes self)) (set_heap h (next_id self) (set_stack rest self)))
    end.

Definition getline : M string :=
  gets (fun self => Lexer.getline (lexer self) (t_line_start (current self))).

Definition accept (s : string) : M bool :=
  cur <- gets current;
  if String.eqb (tid cur) s then getsym;; ret true else ret false.

Definition accept_any (tids : list string) : M string :=
  cur <- gets current;
  if mem_str (tid cur) tids then getsym;; ret (tid cur) else ret EmptyString.

Definition expect (s : string) : M bool :=
  b <- accept s;
  if b then ret true
  else
    cur <- gets current;
    line <- getline;
    raise (ParseException ("Expecting " +:+ s +:+ " got " +:+ tid cur +:+ ".")
             line (t_lineno cur) (t_colno cur)).

Definition block_expect (s : string) (block_start : Token) : M bool :=
  b <- accept s;
  if b then ret true
  else
    cur <- gets current;
    line <- getline;
    lx <- gets lexer;
    raise (BlockParseException ("Expecting " +:+ s +:+ " got " +:+ tid cur +:+ ".")
             line (t_lineno cur) (t_colno cur)
             (Lexer.getline lx (t_line_start block_start))
             (t_lineno block_start) (t_colno block_start)).

(** *** Node construction: the [__init__] methods *)

(** [BaseNode.__init__] and [__post_init__]: a fresh object with empty
    comment lists. *)
Definition new_BaseNode (lineno colno : Z) (filename : string)
    (end_lineno end_colno : option Z) (span : option (Z * Z)) : M BaseNode :=
  fun self =>
    let i := next_id self in
    let b := mkBaseNode i lineno colno filename
               (default lineno end_lineno) (default colno end_colno) in
    Ok (b, set_heap (<[ i := mkAttrs span [] [] [] ]> (heap self)) (S i) self).

(** [ElementaryNode.__init__] *)
Definition new_ElementaryNode (token : Token) : M BaseNode :=
  new_BaseNode (t_lineno token) (t_colno token) (t_filename token) None None
               (Some (t_bytespan token)).

Definition with_value (token : Token) (v : TokenValue) : Token :=
  mkToken (tid token) (t_filename token) (t_line_start token) (t_lineno token)
          (t_colno token) (t_bytespan token) v.

Definition new_BooleanNode (token : Token) : M Node :=
  b <- new_ElementaryNode token;
  match t_value token with
  | VBool v => ret (BooleanNode b v)
  | _ => raise AssertionError
  end.

Definition new_str_node (mkNode : BaseNode -> string -> Node) (token : Token) : M Node :=
  b <- new_ElementaryNode token;
  match t_value token with
  | VStr v => ret (mkNode b v)
  | _ => raise AssertionError
  end.

Definition new_IdNode : Token -> M Node := new_str_node IdNode.
Definition new_StringNode : Token -> M Node := new_str_node StringNode.
Definition new_FormatStringNode : Token -> M Node := new_str_node FormatStringNode.
Definition new_MultilineFormatStringNode : Token -> M Node :=
  new_str_node MultilineFormatStringNode.

(** [isinstance(True, int)] holds in Python; a number token never carries a
    boolean, and the model stops there. *)
Definition new_NumberNode (token : Token) : M Node :=
  b <- new_ElementaryNode token;
  match t_value token with
  | VInt v => ret (NumberNode b v)
  | VBool _ => stuck
  | _ => raise AssertionError
  end.

Definition new_ContinueNode (token : Token) : M Node :=
  b <- new_ElementaryNode token; ret (ContinueNode b (t_value token)).

Definition new_BreakNode (token : Token) : M Node :=
  b <- new_ElementaryNode token; ret (BreakNode b (t_value token)).

Definition at_token (token : Token) : M BaseNode :=
  new_BaseNode (t_lineno token) (t_colno token) (t_filename token) None None None.

Definition at_node (n : Node) : M BaseNode :=
  new_BaseNode (lineno (base_of n)) (colno (base_of n)) (filename (base_of n)) None None None.

Definition new_ArgumentNode (token : Token) : M (ArgList Node) :=
  b <- at_token token; ret (mkArgList b [] [] [] false).

Definition new_ArrayNode (args : Node) (lineno colno end_lineno end_colno : Z) : M Node :=
  b <- new_BaseNode lineno colno (filename (base_of args)) (Some end_lineno) (Some end_colno) None;
  ret (ArrayNode b args).

Definition new_DictNode (args : Node) (lineno colno end_lineno end_colno : Z) : M Node :=
  b <- new_BaseNode lineno colno (filename (base_of args)) (Some end_lineno) (Some end_colno) None;
  ret (DictNode b args).

Definition new_EmptyNode (lineno colno : Z) (filename : string) : M Node :=
  b <- new_BaseNode lineno colno filename None None None; ret (EmptyNode b).

Definition new_OrNode (left right : Node) : M Node :=
  b <- at_node left; ret (OrNode b left right).

Definition new_AndNode (left right : Node) : M Node :=
  b <- at_node left; ret (AndNode b left right).

Definition new_ComparisonNode (ctype : string) (left right : Node) : M Node :=
  b <- at_node left; ret (ComparisonNode b ctype left right).

Definition new_ArithmeticNode (operation : string) (left right : Node) : M Node :=
  b <- at_node left; ret (ArithmeticNode b operation left right).

Definition new_NotNode (token : Token) (value : Node) : M Node :=
  b <- at_token token; ret (NotNode b value).

Definition new_IndexNode (iobject index : Node) : M Node :=
  b <- at_node iobject; ret (IndexNode b iobject index).

Definition new_MethodNode (filename : string) (lineno colno : Z)
    (source_object : Node) (name : string) (args : Node) : M Node :=
  b <- new_BaseNode lineno colno filename None None None;
  ret (MethodNode b source_object name args).

Definition new_FunctionNode (filename : string) (lineno colno end_lineno end_colno : Z)
    (func_name : string) (args : Node) : M Node :=
  b <- new_BaseNode lineno colno filename (Some end_lineno) (Some end_colno) None;
  ret (FunctionNode b func_name args).

Definition new_AssignmentNode (filename : string) (lineno colno : Z)
    (var_name : string) (value : Node) : M Node :=
  b <- new_BaseNode lineno colno filename None None None;
  ret (AssignmentNode b var_name value).

Definition new_PlusAssignmentNode (filename : string) (lineno colno : Z)
    (var_name : string) (value : Node) : M Node :=
  b <- new_BaseNode lineno colno filename None None None;
  ret (PlusAssignmentNode b var_name value).

Definition new_ForeachClauseNode (token : Token) (varnames : list string)
    (items block : Node) : M Node :=
  b <- at_token token; ret (ForeachClauseNode b varnames items block).

Definition new_IfNode (linenode : BaseNode) (condition block : Node) : M Node :=
  b <- new_BaseNode (lineno linenode) (colno linenode) (filename linenode) None None None;
  ret (IfNode b condition block).

Definition new_ParenthesizedNode (inner : Node) (lineno colno end_lineno end_colno : Z)
  : M Node :=
  b <- new_BaseNode lineno colno (filename (base_of inner)) (Some end_lineno) (Some end_colno) None;
  ret (ParenthesizedNode b inner).

Definition new_UMinusNode (current_location : Token) (value : Node) : M Node :=
  b <- at_token current_location; ret (UMinusNode b value).

Definition new_TernaryNode (condition trueblock falseblock : Node) : M Node :=
  b <- at_node condition; ret (TernaryNode b condition trueblock falseblock).

(** *** The methods of [ArgumentNode] *)

Definition num_kwargs (a : ArgList Node) : Z := Z.of_nat (length (kwargs a)).

Definition prepend (a : ArgList Node) (statement : Node) : ArgList Node :=
  let oe := if 0 <? num_kwargs a then true else order_error a in
  mkArgList (a_base a)
    (if is_EmptyNode statement then arguments a else [statement] ++ arguments a)
    (commas a) (kwargs a) oe.

Definition append (a : ArgList Node) (statement : Node) : ArgList Node :=
  let oe := if 0 <? num_kwargs a then true else order_error a in
  mkArgList (a_base a)
    (if is_EmptyNode statement then arguments a else arguments a ++ [statement])
    (commas a) (kwargs a) oe.

Definition add_comma (a : ArgList Node) (tok : Token) : ArgList Node :=
  mkArgList (a_base a) (arguments a) (commas a ++ [tok]) (kwargs a) (order_error a).

Definition set_kwarg_no_check (a : ArgList Node) (name value : Node) : ArgList Node :=
  mkArgList (a_base a) (arguments a) (commas a) (kwargs a ++ [(name, value)]) (order_error a).

Definition duplicate_kwarg_warning (name : string) : string :=
  "Keyword argument " +:+ chr DQUOTE +:+ name +:+ chr DQUOTE +:+ " defined multiple times.".

Definition future_error_warning : string :=
  "This will be an error in future Meson releases.".

(** The key [name] is an [IdNode]: [args] checks it before the call. *)
Definition set_kwarg (a : ArgList Node) (name : Node) (name_value : string) (value : Node)
  : M (ArgList Node) :=
  (if existsb (fun kv => match fst kv with
                         | IdNode _ v => String.eqb name_value v
                         | _ => false
                         end) (kwargs a)
   then warning (duplicate_kwarg_warning name_value);; warning future_error_warning
   else ret tt);;
  ret (set_kwarg_no_check a name value).

End ParserOps.

(** ** The grammar

    The methods call one another through [self]; in the model [self] is the
    record of the methods with one unit of fuel less, and [methods] ties the
    knot.  A [while] loop is a method of its own, named after its host, that
    takes the variables the loop changes. *)

Module Self.
Import Parser.

Record t : Type := mk {
  statement : M Node;
  e1 : M Node;
  e2 : M Node;
  e2_while : Node * bool -> M (Node * bool);
  e3 : M Node;
  e3_while : Node -> M Node;
  e4 : M Node;
  e5 : M Node;
  e5addsub : M Node;
  e5addsub_while : Node -> M Node;
  e5muldiv : M Node;
  e5muldiv_while : Node -> M Node;
  e6 : M Node;
  e7 : M Node;
  e7_while : Node -> M Node;
  e8 : M Node;
  key_values : M Node;
  key_values_while : Node * ArgList Node -> M Node;
  args : M Node;
  args_while : Node * ArgList Node -> M Node;
  method_call : Node -> M Node;
  index_call : Node -> M Node;
  foreachblock : M Node;
  ifblock : M Node;
  elseifblock : list Node -> M (list Node);
  elseblock : M Node;
  line : M Node;
  codeblock : M Node;
  codeblock_while : list Node -> M (list Node)
}.

End Self.

Module Grammar.
Import Parser ParserOps.

Definition parse_error (text : string) (lineno colno : Z) : M Node :=
  line <- getline; raise (ParseException text line lineno colno).

Definition error_at (text : string) (n : Node) : M Node :=
  parse_error text (lineno (base_of n)) (colno (base_of n)).

(** [e9] calls no other method of the grammar. *)
Definition e9 : M Node :=
  begin;;
  t <- gets current;
  b <- accept "true";
  if b then x1 <- new_BooleanNode (with_value t (VBool true)); end_ x1;; ret x1 else
  b <- accept "false";
  if b then x2 <- new_BooleanNode (with_value t (VBool false)); end_ x2;; ret x2 else
  b <- accept "id";
  if b then x3 <- new_IdNode t; end_ x3;; ret x3 else
  b <- accept "number";
  if b then x4 <- new_NumberNode t; end_ x4;; ret x4 else
  b <- accept "string";
  if b then x5 <- new_StringNode t; end_ x5;; ret x5 else
  b <- accept "fstring";
  if b then x6 <- new_FormatStringNode t; end_ x6;; ret x6 else
  b <- accept "multiline_fstring";
  if b then x7 <- new_MultilineFormatStringNode t; end_ x7;; ret x7 else
  cur <- gets current;
  x8 <- new_EmptyNode (t_lineno cur) (t_colno cur) (t_filename cur);
  end_ x8;; ret x8.

Section Methods.
Variable self : Self.t.

Definition statement : M Node :=
  begin;;
  e <- Self.e1 self;
  end_ e;; ret e.

Definition e1 : M Node :=
  begin;;
  left <- Self.e2 self;
  b <- accept "plusassign";
  if b then
    value <- Self.e1 self;
    match left with
    | IdNode lb left_value =>
        e <- new_PlusAssignmentNode (filename lb) (lineno lb) (colno lb) left_value value;
        end_ e;; ret e
    | _ => error_at "Plusassignment target must be an id." left
    end
  else
  b <- accept "assign";
  if b then
    value <- Self.e1 self;
    match left with
    | IdNode lb left_value =>
        f <- new_AssignmentNode (filename lb) (lineno lb) (colno lb) left_value value;
        end_ f;; ret f
    | _ => error_at "Assignment target must be an id." left
    end
  else
  b <- accept "questionmark";
  if b then
    in_ternary <- gets in_ternary;
    if in_ternary then error_at "Nested ternary operators are not allowed." left
    else
      modify (set_in_ternary true);;
      trueblock <- Self.e1 self;
      expect "colon";;
      falseblock <- Self.e1 self;
      modify (set_in_ternary false);;
      g <- new_TernaryNode left trueblock falseblock;
      end_ g;; ret g
  else
  end_ left;; ret left.

Definition e2_while (vars : Node * bool) : M (Node * bool) :=
  let left := fst vars in
  let started := snd vars in
  b <- accept "or";
  if b then
    if is_EmptyNode left then
      _ <- error_at "Invalid or clause." left; ret vars
    else
      right <- Self.e3 self;
      x1 <- new_OrNode left right;
      end_ x1;;
      begin;;
      Self.e2_while self (x1, false)
  else ret (left, started).

Definition e2 : M Node :=
  begin;;
  left <- Self.e3 self;
  vars <- Self.e2_while self (left, false);
  let left := fst vars in
  let started := snd vars in
  (if negb started then end_ left else ret tt);;
  ret left.

Definition e3_while (left : Node) : M Node :=
  b <- accept "and";
  if b then
    if is_EmptyNode left then error_at "Invalid and clause." left
    else
      right <- Self.e4 self;
      x1 <- new_AndNode left right;
      end_ x1;;
      begin;;
      Self.e3_while self x1
  else ret left.

Definition e3 : M Node :=
  begin;;
  left <- Self.e4 self;
  let started := false in
  left <- Self.e3_while self left;
  (if negb started then end_ left else ret tt);;
  ret left.

(** The [for] loop of [e4] over [comparison_map.items()]; [Some x] when the
    loop returned [x]. *)
Fixpoint e4_for (items : list (string * string)) (left : Node) : M (option Node) :=
  match items with
  | [] => ret None
  | (nodename, operator_type) :: rest =>
      b <- accept nodename;
      if b then
        right <- Self.e5 self;
        x <- new_ComparisonNode operator_type left right;
        end_ x;; ret (Some x)
      else e4_for rest left
  end.

Definition e4 : M Node :=
  begin;;
  left <- Self.e5 self;
  r <- e4_for comparison_map left;
  match r with
  | Some x => ret x
  | None =>
      b1 <- accept "not";
      b2 <- (if b1 then accept "in" else ret false);
      if b1 && b2 then
        right <- Self.e5 self;
        x <- new_ComparisonNode "notin" left right;
        end_ x;; ret x
      else
        end_ left;; ret left
  end.

Definition e5 : M Node := Self.e5addsub self.

Definition lookup_op (op_map : list (string * string)) (op : string) : string :=
  match find (fun kv => String.eqb (fst kv) op) op_map with
  | Some kv => snd kv
  | None => EmptyString
  end.

Definition addsub_map : list (string * string) := [("plus", "add"); ("dash", "sub")].

Definition e5addsub_while (left : Node) : M Node :=
  op <- accept_any (map fst addsub_map);
  if negb (String.eqb op EmptyString) then
    right <- Self.e5muldiv self;
    x1 <- new_ArithmeticNode (lookup_op addsub_map op) left right;
    end_ x1;;
    begin;;
    Self.e5addsub_while self x1
  else ret left.

Definition e5addsub : M Node :=
  begin;;
  left <- Self.e5muldiv self;
  left <- Self.e5addsub_while self left;
  end_ left;; ret left.

Definition muldiv_map : list (string * string) :=
  [("percent", "mod"); ("star", "mul"); ("fslash", "div")].

Definition e5muldiv_while (left : Node) : M Node :=
  op <- accept_any (map fst muldiv_map);
  if negb (String.eqb op EmptyString) then
    right <- Self.e6 self;
    x1 <- new_ArithmeticNode (lookup_op muldiv_map op) left right;
    end_ x1;;
    begin;;
    Self.e5muldiv_while self x1
  else ret left.

Definition e5muldiv : M Node :=
  begin;;
  left <- Self.e6 self;
  left <- Self.e5muldiv_while self left;
  end_ left;; ret left.

Definition e6 : M Node :=
  begin;;
  b <- accept "not";
  if b then
    cur <- gets current;
    value <- Self.e7 self;
    x <- new_NotNode cur value;
    end_ x;; ret x
  else
  b <- accept "dash";
  if b then
    cur <- gets current;
    value <- Self.e7 self;
    x1 <- new_UMinusNode cur value;
    end_ x1;; ret x1
  else
  x2 <- Self.e7 self;
  end_ x2;; ret x2.

(** One turn of [while go_again] in [e7]. *)
Definition e7_while (left : Node) : M Node :=
  let go_again := false in
  b <- accept "dot";
  vars <-
    (if b then
       x2 <- Self.method_call self left;
       end_ left;;
       begin;;
       ret (x2, true)
     else ret (left, go_again));
  let left := fst vars in
  let go_again := snd vars in
  b <- accept "lbracket";
  vars <-
    (if b then
       x3 <- Self.index_call self left;
       end_ left;;
       begin;;
       ret (x3, true)
     else ret (left, go_again));
  let left := fst vars in
  let go_again := snd vars in
  if go_again then Self.e7_while self left else ret left.

Definition e7 : M Node :=
  begin;;
  left <- Self.e8 self;
  block_start <- gets current;
  b <- accept "lparen";
  left <-
    (if b then
       args <- Self.args self;
       block_expect "rparen" block_start;;
       match left with
       | IdNode lb left_value =>
           cur <- gets current;
           x1 <- new_FunctionNode (filename lb) (lineno lb) (colno lb)
                   (t_lineno cur) (t_colno cur) left_value args;
           end_ left;;
           begin;;
           ret x1
       | _ => error_at "Function call must be applied to plain id" left
       end
     else ret left);
  left <- Self.e7_while self left;
  end_ left;; ret left.

Definition e8 : M Node :=
  begin;;
  block_start <- gets current;
  b <- accept "lparen";
  if b then
    e <- Self.statement self;
    block_expect "rparen" block_start;;
    cur <- gets current;
    e1 <- new_ParenthesizedNode e (t_lineno block_start) (t_colno block_start)
            (t_lineno cur) (t_colno cur);
    end_ e1;; ret e1
  else
  b <- accept "lbracket";
  if b then
    args <- Self.args self;
    block_expect "rbracket" block_start;;
    cur <- gets current;
    x1 <- new_ArrayNode args (t_lineno block_start) (t_colno block_start)
            (t_lineno cur) (t_colno cur);
    end_ x1;; ret x1
  else
  b <- accept "lcurl";
  if b then
    key_values <- Self.key_values self;
    block_expect "rcurl" block_start;;
    cur <- gets current;
    x2 <- new_DictNode key_values (t_lineno block_start) (t_colno block_start)
            (t_lineno cur) (t_colno cur);
    end_ x2;; ret x2
  else
  x3 <- e9;
  end_ x3;; ret x3.

Definition key_values_while (vars : Node * ArgList Node) : M Node :=
  let '(s, a) := vars in
  if negb (is_EmptyNode s) then
    b <- accept "colon";
    if b then
      value <- Self.statement self;
      let a := set_kwarg_no_check a s value in
      potential <- gets current;
      b <- accept "comma";
      if negb b then end_ (ArgumentNode a);; ret (ArgumentNode a)
      else
        let a := add_comma a potential in
        s <- Self.statement self;
        Self.key_values_while self (s, a)
    else error_at "Only key:value pairs are valid in dict construction." s
  else
    end_ (ArgumentNode a);; ret (ArgumentNode a).

Definition key_values : M Node :=
  begin;;
  s <- Self.statement self;
  cur <- gets current;
  a <- new_ArgumentNode cur;
  Self.key_values_while self (s, a).

Definition args_while (vars : Node * ArgList Node) : M Node :=
  let '(s, a) := vars in
  if negb (is_EmptyNode s) then
    potential <- gets current;
    b <- accept "comma";
    if b then
      let a := add_comma a potential in
      let a := append a s in
      s <- Self.statement self;
      Self.args_while self (s, a)
    else
    b <- accept "colon";
    if b then
      match s with
      | IdNode _ s_value =>
          value <- Self.statement self;
          a <- set_kwarg a s s_value value;
          potential <- gets current;
          b <- accept "comma";
          if negb b then end_ (ArgumentNode a);; ret (ArgumentNode a)
          else
            let a := add_comma a potential in
            s <- Self.statement self;
            Self.args_while self (s, a)
      | _ => error_at "Dictionary key must be a plain identifier." s
      end
    else
      let a := append a s in
      end_ (ArgumentNode a);; ret (ArgumentNode a)
  else
    end_ (ArgumentNode a);; ret (ArgumentNode a).

Definition args : M Node :=
  begin;;
  s <- Self.statement self;
  cur <- gets current;
  a <- new_ArgumentNode cur;
  Self.args_while self (s, a).

Definition method_call (source_object : Node) : M Node :=
  begin;;
  methodname <- e9;
  match methodname with
  | IdNode mb methodname_value =>
      expect "lparen";;
      args <- Self.args self;
      expect "rparen";;
      method <- new_MethodNode (filename mb) (lineno mb) (colno mb)
                  source_object methodname_value args;
      b <- accept "dot";
      if b then
        x1 <- Self.method_call self method;
        end_ x1;; ret x1
      else
        end_ method;; ret method
  | _ =>
      cur <- gets current;
      parse_error "Method name must be plain id" (t_lineno cur) (t_colno cur)
  end.

Definition index_call (source_object : Node) : M Node :=
  begin;;
  index_statement <- Self.statement self;
  expect "rbracket";;
  x1 <- new_IndexNode source_object index_statement;
  end_ x1;; ret x1.

(** [assert isinstance(t.value, str)] *)
Definition str_value (t : Token) : M string :=
  match t_value t with
  | VStr s => ret s
  | _ => raise AssertionError
  end.

Definition foreachblock : M Node :=
  begin;;
  t <- gets current;
  expect "id";;
  v <- str_value t;
  let varname := t in
  let varnames := [v] in
  b <- accept "comma";
  varnames <-
    (if b then
       t <- gets current;
       expect "id";;
       v <- str_value t;
       ret (varnames ++ [v])
     else ret varnames);
  expect "colon";;
  items <- Self.statement self;
  block <- Self.codeblock self;
  x1 <- new_ForeachClauseNode varname varnames items block;
  end_ x1;; ret x1.

(** The [IfClauseNode] is allocated before its branches are parsed; they are
    appended to it afterwards. *)
Definition ifblock : M Node :=
  begin;;
  condition <- Self.statement self;
  clause <- at_node condition;
  expect "eol";;
  block <- Self.codeblock self;
  begin;;
  i <- new_IfNode clause condition block;
  end_ i;;
  ifs <- Self.elseifblock self [i];
  elseblock <- Self.elseblock self;
  let clause := IfClauseNode clause ifs elseblock in
  end_ clause;; ret clause.

(** [elseifblock(clause)], on the list [clause.ifs]. *)
Definition elseifblock (ifs : list Node) : M (list Node) :=
  b <- accept "elif";
  if b then
    begin;;
    s <- Self.statement self;
    expect "eol";;
    b <- Self.codeblock self;
    x1 <- new_IfNode (base_of s) s b;
    end_ x1;;
    Self.elseifblock self (ifs ++ [x1])
  else ret ifs.

Definition elseblock : M Node :=
  b <- accept "else";
  if b then
    expect "eol";;
    Self.codeblock self
  else
    begin;;
    cur <- gets current;
    x1 <- new_EmptyNode (t_lineno cur) (t_colno cur) (t_filename cur);
    end_ x1;; ret x1.

Definition line : M Node :=
  block_start <- gets current;
  begin;;
  cur <- gets current;
  if String.eqb (tid cur) "eol" then
    x1 <- new_EmptyNode (t_lineno cur) (t_colno cur) (t_filename cur);
    end_ x1;; ret x1
  else
  b <- accept "if";
  if b then
    ifblock <- Self.ifblock self;
    block_expect "endif" block_start;;
    end_ ifblock;; ret ifblock
  else
  b <- accept "foreach";
  if b then
    forblock <- Self.foreachblock self;
    block_expect "endforeach" block_start;;
    end_ forblock;; ret forblock
  else
  b <- accept "continue";
  if b then
    cur <- gets current;
    x2 <- new_ContinueNode cur;
    end_ x2;; ret x2
  else
  b <- accept "break";
  if b then
    cur <- gets current;
    x3 <- new_BreakNode cur;
    end_ x3;; ret x3
  else
  s <- Self.statement self;
  end_ s;; ret s.

(** One turn of [while cond] in [codeblock], on the list [block.lines]. *)
Definition codeblock_while (lines : list Node) : M (list Node) :=
  curline <- Self.line self;
  let lines := if negb (is_EmptyNode curline) then lines ++ [curline] else lines in
  cond <- accept "eol";
  if cond then Self.codeblock_while self lines else ret lines.

Definition codeblock : M Node :=
  begin;;
  cur <- gets current;
  block <- at_token cur;
  lines <- Self.codeblock_while self [];
  let block := CodeBlockNode block lines in
  end_ block;; ret block.

Definition step : Self.t :=
  Self.mk statement e1 e2 e2_while e3 e3_while e4 e5 e5addsub e5addsub_while
          e5muldiv e5muldiv_while e6 e7 e7_while e8 key_values key_values_while
          args args_while method_call index_call foreachblock ifblock elseifblock
          elseblock line codeblock codeblock_while.

End Methods.

Definition out_of_fuel : Self.t :=
  Self.mk stuck stuck stuck (fun _ => stuck) stuck (fun _ => stuck) stuck stuck stuck
          (fun _ => stuck) stuck (fun _ => stuck) stuck stuck (fun _ => stuck) stuck
          stuck (fun _ => stuck) stuck (fun _ => stuck) (fun _ => stuck) (fun _ => stuck)
          stuck stuck (fun _ => stuck) stuck stuck stuck (fun _ => stuck).

Fixpoint methods (fuel : nat) : Self.t :=
  match fuel with
  | O => out_of_fuel
  | S fuel' => step (methods fuel')
  end.

End Grammar.

(** ** Comment attachment and [Parser.parse] *)

Module Attach.
Import Parser ParserOps.

(** One of the three [for n in self.nodes] loops of [attach_comment]: [skip]
    is the condition of its [continue] statements, [distance] its distance;
    the spans are those of the nodes of the set, by identity. *)
Fixpoint nearest (skip : Z * Z -> bool) (distance : Z * Z -> Z)
    (ns : list (nat * (Z * Z))) (smallest_distance : Z) (node : option nat)
  : option nat :=
  match ns with
  | [] => node
  | (n, span) :: rest =>
      if skip span then nearest skip distance rest smallest_distance node
      else
        let d := distance span in
        if d <? smallest_distance
        then nearest skip distance rest d (Some n)
        else nearest skip distance rest smallest_distance node
  end.

Definition smallest_distance_init : Z := 100000000000.

(** First loop: the comment starts inside the node. *)
Definition enclosing (ns : list (nat * (Z * Z))) (comment : Z * Z) : option nat :=
  nearest (fun n => (fst comment <? fst n) || (snd n <? fst comment))
          (fun n => snd n - fst n)
          ns smallest_distance_init None.

(** Second loop: "nodes that are before it". *)
Definition preceding (ns : list (nat * (Z * Z))) (comment : Z * Z) : option nat :=
  nearest (fun n => fst comment <? fst n)
          (fun n => snd n - fst comment)
          ns smallest_distance_init None.

(** Third loop: "nodes that are after it". *)
Definition following (ns : list (nat * (Z * Z))) (comment : Z * Z) : option nat :=
  nearest (fun n => snd comment <? fst n)
          (fun n => snd comment - fst n)
          ns smallest_distance_init None.

(** Which list of which node receives the comment. *)
Inductive placement : Type :=
| Inline (node : nat)      (* [node.comments] *)
| Leading (node : nat)     (* [node.pre_comments] *)
| Trailing (node : nat)    (* [node.post_comments] *)
| Dropped                  (* [len(self.nodes) == 0] *)
| Failed.                  (* [assert node is not None] *)

Definition place (ns : list (nat * (Z * Z))) (comment : Z * Z) : placement :=
  if (length ns =? 0)%nat then Dropped else
  match enclosing ns comment with
  | Some n => Inline n
  | None =>
  match preceding ns comment with
  | Some n => Leading n
  | None =>
  match following ns comment with
  | Some n => Trailing n
  | None => Failed
  end end end.

(** [n.bytespan] for the nodes of the set; [None] has no subscript. *)
Fixpoint spans (h : gmap nat Attrs) (ns : list nat) : option (list (nat * (Z * Z))) :=
  match ns with
  | [] => Some []
  | n :: rest =>
      match h !! n, spans h rest with
      | Some a, Some l =>
          match bytespan a with
          | Some span => Some ((n, span) :: l)
          | None => None
          end
      | _, _ => None
      end
  end.

Definition add_comment (where_ : placement) (c : Comment) (h : gmap nat Attrs)
  : gmap nat Attrs :=
  match where_ with
  | Inline n =>
      alter (fun a => mkAttrs (bytespan a) (pre_comments a) (comments a ++ [c]) (post_comments a)) n h
  | Leading n =>
      alter (fun a => mkAttrs (bytespan a) (pre_comments a ++ [c]) (comments a) (post_comments a)) n h
  | Trailing n =>
      alter (fun a => mkAttrs (bytespan a) (pre_comments a) (comments a) (post_comments a ++ [c])) n h
  | _ => h
  end.

Definition attach_comment (comment : Comment) : M unit :=
  ns <- gets nodes;
  h <- gets heap;
  if (length ns =? 0)%nat then ret tt else
  match spans h ns with
  | None => raise TypeError
  | Some l =>
      match place l (c_bytespan comment) with
      | Failed => raise AssertionError
      | where_ => modify (fun self => set_heap (add_comment where_ comment h) (next_id self) self)
      end
  end.

Fixpoint attach_comments (cs : list Comment) : M unit :=
  match cs with
  | [] => ret tt
  | c :: rest => attach_comment c;; attach_comments rest
  end.

(** [Parser.parse]; the [print] of a non-empty stack before the assertion
    writes to standard output only. *)
Definition parse (self : Self.t) : M Node :=
  block <- Self.codeblock self;
  expect "eof";;
  st <- gets stack;
  (if (length st =? 0)%nat then ret tt else raise AssertionError);;
  lx <- gets lexer;
  attach_comments (Lexer.comments lx);;
  ret block.

End Attach.

(** [Parser(code, filename).parse()] with [fuel] nested calls at most. *)
Definition parse_fuel (fuel : nat) (code filename : string) : result (Node * Parser.t) :=
  match ParserOps.init code filename with
  | Ok self => Attach.parse (Grammar.methods fuel) self
  | Raise e => Raise e
  | Stuck => Stuck
  end.

(** Fuel for [parse]: ample for the depth to which the calls of the grammar
    nest on a text of this length; were it not enough, the result would be
    [Stuck]. *)
Definition fuel_of (code : string) : nat := (64 + 32 * String.length code)%nat.

Definition parse (code : string) : result (Node * Parser.t) :=
  parse_fuel (fuel_of code) code "meson.build".

Definition tree (r : result (Node * Parser.t)) : result Node :=
  match r with
  | Ok (n, _) => Ok n
  | Raise e => Raise e
  | Stuck => Stuck
  end.

(** ** The fixed-style formatter ([mesonbuild/ast/formatter.py]) *)

Definition arithmic_map : list (string * string) :=
  [("add", "+"); ("sub", "-"); ("mod", "%"); ("mul", "*"); ("div", "/")].

(** [str.isspace] on the code points below 256 *)
Definition is_space (c : ascii) : bool :=
  let n := N_of_ascii c in
  ((9 <=? n) && (n <=? 13) || (28 <=? n) && (n <=? 32) || (n =? 133) || (n =? 160))%N.

Fixpoint all_space (s : string) : bool :=
  match s with
  | EmptyString => true
  | String c r => is_space c && all_space r
  end.

Fixpoint rev_str (s : string) (acc : string) : string :=
  match s with
  | EmptyString => acc
  | String c r => rev_str r (String c acc)
  end.

Definition ends_with (s suffix : string) : bool :=
  String.prefix (rev_str suffix EmptyString) (rev_str s EmptyString).

Definition drop_last (n : nat) (s : string) : string :=
  substring 0 (String.length s - n) s.

(** [re.sub(r', $', '', s)]: [$] matches at the end of the text and in front
    of a newline that ends it. *)
Definition strip_trailing_separator (s : string) : string :=
  if ends_with s ", " then drop_last 2 s
  else if ends_with s (", " +:+ chr LF) then drop_last 3 s +:+ chr LF
  else s.

Module AstFormatter.

Record t : Type := mk {
  lines : list string;
  indentstr : string;
  currindent : string;
  currline : string
}.

Definition init : t := mk [] "  " EmptyString EmptyString.

Definition end_ (self : t) : t :=
  mk (lines self ++ [currline self]) (indentstr self) (currindent self) (currline self).

Definition append (to_append : string) (self : t) : t :=
  mk (lines self) (indentstr self) (currindent self) (currline self +:+ to_append).

Definition force_linebreak (self : t) : t :=
  mk (lines self ++ [currline self]) (indentstr self) (currindent self) (currindent self).

Definition eventual_linebreak (self : t) : t :=
  if negb (all_space (currline self)) then force_linebreak self else self.

Definition set_indentstr (i : string) (self : t) : t :=
  mk (lines self) i (currindent self) (currline self).

Definition set_currline (l : string) (self : t) : t :=
  mk (lines self) (indentstr self) (currindent self) l.

(** [val.translate(...)] of [escape] *)
Fixpoint escape (val : string) : string :=
  match val with
  | EmptyString => EmptyString
  | String c r =>
      (if is_char SQUOTE c then chr BACKSLASH +:+ chr SQUOTE
       else if is_char BACKSLASH c then chr BACKSLASH +:+ chr BACKSLASH
       else if is_char LF c then chr BACKSLASH +:+ "n"
       else chr c) +:+ escape r
  end.

(** Modelled from the spec: the base class [AstVisitor], from which
    [AstFormatter] inherits, is not among the sources.  The specification
    describes the dispatch as a lookup of [visit_<TypeName>] under which a
    node kind that is not handled is a silent no-op; so the base class is
    taken to bring no [visit_] method of its own. *)
Definition AstVisitor_methods : list string := [].

(** The [visit_] methods the class defines, and those it inherits. *)
Definition methods : list string :=
  ["visit_BooleanNode"; "visit_IdNode"; "visit_NumberNode"; "visit_StringNode";
   "visit_FormatStringNode"; "visit_ContinueNode"; "visit_BreakNode";
   "visit_ArrayNode"; "visit_DictNode"; "visit_OrNode"; "visit_AndNode";
   "visit_ComparisonNode"; "visit_ArithmeticNode"; "visit_NotNode";
   "visit_CodeBlockNode"; "visit_IndexNode"; "visit_MethodNode";
   "visit_FunctionNode"; "visit_AssignmentNode"; "visit_PlusAssignmentNode";
   "visit_ForeachClauseNode"; "visit_IfClauseNode"; "visit_UMinusNode";
   "visit_IfNode"; "visit_TernaryNode"; "visit_ArgumentNode"]
  ++ AstVisitor_methods.

Definition hasattr (fname : string) : bool := mem_str fname methods.

Definition lookup_symbol (operation : string) : string :=
  match find (fun kv => String.eqb (fst kv) operation) arithmic_map with
  | Some kv => snd kv
  | None => EmptyString
  end.

(** [node.accept(self)]: [BaseNode.accept] looks the method up by the name
    of the node's class and calls it when there is one; the branches are the
    bodies of the [visit_] methods. *)
Fixpoint accept (node : Node) (self : t) : t :=
  if hasattr ("visit_" +:+ type_name node) then
    match node with
    | BooleanNode _ value => append (if value then "true" else "false") self
    | IdNode _ value => append value self
    | NumberNode _ value => append (str_of_int value) self
    | StringNode _ value => append ("'" +:+ escape value +:+ "'") self
    | FormatStringNode _ value => append ("f'" +:+ value +:+ "'") self
    | ContinueNode _ _ => force_linebreak (append "continue" (force_linebreak self))
    | BreakNode _ _ => force_linebreak (append "break" (force_linebreak self))
    | ArrayNode _ args => append "]" (accept args (append "[" self))
    | DictNode _ args => append "}" (accept args (append "{" self))
    | OrNode _ left_ right_ => accept right_ (append " or " (accept left_ self))
    | AndNode _ left_ right_ => accept right_ (append " and " (accept left_ self))
    | ComparisonNode _ ctype left_ right_ =>
        accept right_ (append (" " +:+ ctype +:+ " ") (accept left_ self))
    | ArithmeticNode _ operation left_ right_ =>
        accept right_ (append (" " +:+ lookup_symbol operation +:+ " ") (accept left_ self))
    | NotNode _ value => accept value (append " not " self)
    | CodeBlockNode _ lines =>
        fold_left (fun self i => force_linebreak (accept i self)) lines self
    | IndexNode _ iobject index =>
        append "]" (accept index (append "[" (accept iobject self)))
    | MethodNode _ source_object name args =>
        append ")" (accept args (append ("." +:+ name +:+ "(") (accept source_object self)))
    | FunctionNode _ func_name args =>
        append ")" (accept args (append (func_name +:+ "(") self))
    | AssignmentNode _ var_name value => accept value (append (var_name +:+ " = ") self)
    | PlusAssignmentNode _ var_name value => accept value (append (var_name +:+ " += ") self)
    | ForeachClauseNode _ varnames items block =>
        let self := eventual_linebreak self in
        let self := append "foreach " self in
        let self := append (join ", " varnames) self in
        let self := append " : " self in
        let self := accept items self in
        let self := set_indentstr (indentstr self +:+ " ") self in
        let self := force_linebreak self in
        let self := accept block self in
        let self := set_indentstr (drop_last 1 (indentstr self)) self in
        let self := force_linebreak self in
        let self := append "endforeach" self in
        force_linebreak self
    | IfClauseNode _ ifs elseblock =>
        let self :=
          snd (fold_left (fun '(prefix, self) i =>
                            ("el", accept i (append (prefix +:+ "if ") self)))
                         ifs (EmptyString, self)) in
        let self := if negb (is_EmptyNode elseblock)
                    then accept elseblock (append "else" self) else self in
        append "endif" self
    | UMinusNode _ value => accept value (append "-" self)
    | IfNode _ condition block => accept block (force_linebreak (accept condition self))
    | TernaryNode _ condition trueblock falseblock =>
        accept falseblock (append " : " (accept trueblock (append " ? " (accept condition self))))
    | ArgumentNode a =>
        match a with
        | mkArgList _ arguments _ kwargs _ =>
            let self := fold_left (fun self i => append ", " (accept i self)) arguments self in
            let self :=
              fold_left (fun self kv =>
                           match kv with
                           | (key, val) =>
                               append ", " (accept val (append " : " (accept key self)))
                           end) kwargs self in
            set_currline (strip_trailing_separator (currline self)) self
        end
    | MultilineFormatStringNode _ _ | EmptyNode _ | ParenthesizedNode _ _ => self
    end
  else self.

End AstFormatter.

(** What [mfmt.run] does with a parsed file: the lines it prints. *)
Definition format (codeblock : Node) : list string :=
  AstFormatter.lines (AstFormatter.end_ (AstFormatter.accept codeblock AstFormatter.init)).

(** The lines as one text, joined by newlines. *)
Definition render (lines : list string) : string := join (chr LF) lines.

Definition format_text (code : string) : result (list string) :=
  match parse code with
  | Ok (block, _) => Ok (format block)
  | Raise e => Raise e
  | Stuck => Stuck
  end.

(** ** Specifications

    [wp m s Q]: if [m] returns from state [s], its value and final state
    satisfy [Q].  [frame R m]: every run of [m] that returns relates its
    initial and final state by [R]. *)

Definition wp {A : Type} (m : Parser.M A) (s : Parser.t) (Q : A -> Parser.t -> Prop) : Prop :=
  match m s with
  | Ok (a, s') => Q a s'
  | _ => True
  end.

Definition frame {A : Type} (R : A -> Parser.t -> Parser.t -> Prop) (m : Parser.M A) : Prop :=
  forall s, wp m s (fun a s' => R a s s').

(** The position stack and the ternary flag are as they were. *)
Definition Same {A : Type} (_ : A) (s s' : Parser.t) : Prop :=
  Parser.stack s' = Parser.stack s /\ Parser.in_ternary s' = Parser.in_ternary s.

(** One token more on the stack. *)
Definition Push {A : Type} (_ : A) (s s' : Parser.t) : Prop :=
  Parser.stack s' = Parser.current s :: Parser.stack s
  /\ Parser.in_ternary s' = Parser.in_ternary s.

(** The top of the stack is gone. *)
Definition Pop {A : Type} (_ : A) (s s' : Parser.t) : Prop :=
  Parser.stack s <> [] /\ Parser.stack s' = tail (Parser.stack s)
  /\ Parser.in_ternary s' = Parser.in_ternary s.

(** The top of the stack may have been replaced, what is below is as it was. *)
Definition Reopen {A : Type} (_ : A) (s s' : Parser.t) : Prop :=
  tail (Parser.stack s') = tail (Parser.stack s)
  /\ Parser.in_ternary s' = Parser.in_ternary s.

(** [Reopen] for the loop of [e2]: it never leaves with [started] set when it
    was entered with [started] clear. *)
Definition ReopenStarted (started : bool) (r : Node * bool) (s s' : Parser.t) : Prop :=
  Reopen r s s' /\ (started = false -> snd r = false).

Definition SetTernary (b : bool) {A : Type} (_ : A) (s s' : Parser.t) : Prop :=
  Parser.stack s' = Parser.stack s /\ Parser.in_ternary s' = b.

(** What every method of the grammar does to the stack and to the flag. *)
Record balanced (self : Self.t) : Prop := mkBalanced {
  b_statement : frame Same (Self.statement self);
  b_e1 : frame Same (Self.e1 self);
  b_e2 : frame Same (Self.e2 self);
  b_e2_while : forall v, frame (ReopenStarted (snd v)) (Self.e2_while self v);
  b_e3 : frame Same (Self.e3 self);
  b_e3_while : forall v, frame Reopen (Self.e3_while self v);
  b_e4 : frame Same (Self.e4 self);
  b_e5 : frame Same (Self.e5 self);
  b_e5addsub : frame Same (Self.e5addsub self);
  b_e5addsub_while : forall v, frame Reopen (Self.e5addsub_while self v);
  b_e5muldiv : frame Same (Self.e5muldiv self);
  b_e5muldiv_while : forall v, frame Reopen (Self.e5muldiv_while self v);
  b_e6 : frame Same (Self.e6 self);
  b_e7 : frame Same (Self.e7 self);
  b_e7_while : forall v, frame Reopen (Self.e7_while self v);
  b_e8 : frame Same (Self.e8 self);
  b_key_values : frame Same (Self.key_values self);
  b_key_values_while : forall v, frame Pop (Self.key_values_while self v);
  b_args : frame Same (Self.args self);
  b_args_while : forall v, frame Pop (Self.args_while self v);
  b_method_call : forall v, frame Same (Self.method_call self v);
  b_index_call : forall v, frame Same (Self.index_call self v);
  b_foreachblock : frame Same (Self.foreachblock self);
  b_ifblock : frame Same (Self.ifblock self);
  b_elseifblock : forall v, frame Same (Self.elseifblock self v);
  b_elseblock : frame Same (Self.elseblock self);
  b_line : frame Same (Self.line self);
  b_codeblock : frame Same (Self.codeblock self);
  b_codeblock_while : forall v, frame Same (Self.codeblock_while self v)
}.

(** ** Notions the properties are stated with *)

(** [node.bytespan], read from the heap *)
Definition span_of (self : Parser.t) (n : Node) : option (Z * Z) :=
  match Parser.heap self !! id_of n with
  | Some a => bytespan a
  | None => None
  end.

(** [child.start >= parent.start and child.end <= parent.end] *)
Definition encloses (parent child : Z * Z) : bool :=
  (fst parent <=? fst child) && (snd child <=? snd parent).

(** The span of a node encloses the span of each of its children (a node
    or a child whose [bytespan] is still [None] is not judged). *)
Definition encloses_children (self : Parser.t) (n : Node) : bool :=
  match span_of self n with
  | Some p =>
      forallb (fun c => match span_of self c with
                        | Some q => encloses p q
                        | None => true
                        end) (children n)
  | None => true
  end.

(** The lexer as it is after [n] turns of the loop of [lex]. *)
Fixpoint turns (n : nat) (filename : string) (self : Lexer.t) : result Lexer.t :=
  match n with
  | O => Ok self
  | S n' =>
      match Lexer.lex_step filename self with
      | Ok (_, _, self') => turns n' filename self'
      | Raise e => Raise e
      | Stuck => Stuck
      end
  end.

(** The text left to read. *)
Definition rest_of (self : Lexer.t) : string :=
  drop_str (Z.to_nat (Lexer.loc self)) (Lexer.code self).

(** At the current position the first pattern that matches is the bare
    newline. *)
Definition matches_eol (self : Lexer.t) : Prop :=
  first_match token_specification (rest_of self) = Some ("eol", 1%nat).

(** This turn of the loop yields an end-of-line token. *)
Definition yields_eol (filename : string) (self : Lexer.t) : Prop :=
  exists tok w self', Lexer.lex_step filename self = Ok (Lexer.Yield tok, w, self')
                      /\ tid tok = "eol".

(** This turn of the loop yields no token. *)
Definition swallowed (filename : string) (self : Lexer.t) : Prop :=
  exists w self', Lexer.lex_step filename self = Ok (Lexer.Continue, w, self').

(** The binding strength of the construct at the root of an expression,
    after the table of precedence levels: 1 assignment and ternary, 2 or,
    3 and, 4 comparison, 5 additive, 6 multiplicative, 7 unary, 8 call, method
    and index, 9 parentheses, containers and atoms.  Blocks and argument
    lists are no expressions: 0. *)
Definition level (n : Node) : nat :=
  match n with
  | AssignmentNode _ _ _ | PlusAssignmentNode _ _ _ | TernaryNode _ _ _ _ => 1
  | OrNode _ _ _ => 2
  | AndNode _ _ _ => 3
  | ComparisonNode _ _ _ _ => 4
  | ArithmeticNode _ operation _ _ =>
      if mem_str operation ["add"; "sub"] then 5
      else if mem_str operation ["mod"; "mul"; "div"] then 6
      else 0
  | NotNode _ _ | UMinusNode _ _ => 7
  | FunctionNode _ _ _ | MethodNode _ _ _ _ | IndexNode _ _ _ => 8
  | ParenthesizedNode _ _ | ArrayNode _ _ | DictNode _ _
  | BooleanNode _ _ | IdNode _ _ | NumberNode _ _ | StringNode _ _
  | FormatStringNode _ _ | MultilineFormatStringNode _ _ | EmptyNode _ => 9
  | _ => 0
  end%nat.

(** The operands of the node bind at least as tightly as its place in the
    table asks: the right operand of a left-associative operator more tightly
    than the operator, the left one as tightly. *)
Definition tight (n : Node) : bool :=
  match n with
  | OrNode _ l r => (2 <=? level l) && (3 <=? level r)
  | AndNode _ l r => (3 <=? level l) && (4 <=? level r)
  | ComparisonNode _ _ l r => (5 <=? level l) && (5 <=? level r)
  | ArithmeticNode _ _ l r =>
      (level n <=? level l) && (S (level n) <=? level r) && (5 <=? level n)
  | NotNode _ v | UMinusNode _ v => 8 <=? level v
  | IndexNode _ iobject _ => 8 <=? level iobject
  | MethodNode _ source_object _ _ => 8 <=? level source_object
  | AssignmentNode _ _ v | PlusAssignmentNode _ _ v => 1 <=? level v
  | TernaryNode _ c t f => (2 <=? level c) && (1 <=? level t) && (1 <=? level f)
  | _ => true
  end%nat.

(** Every node of the tree is [tight]. *)
Fixpoint precedence_ok (n : Node) : bool :=
  tight n &&
  match n with
  | ArgumentNode a =>
      match a with
      | mkArgList _ arguments _ kwargs _ =>
          forallb precedence_ok arguments
          && forallb (fun kv => match kv with
                                | (key, val) => precedence_ok key && precedence_ok val
                                end) kwargs
      end
  | ArrayNode _ args | DictNode _ args => precedence_ok args
  | OrNode _ l r | AndNode _ l r | ComparisonNode _ _ l r | ArithmeticNode _ _ l r =>
      precedence_ok l && precedence_ok r
  | NotNode _ v | UMinusNode _ v | AssignmentNode _ _ v | PlusAssignmentNode _ _ v =>
      precedence_ok v
  | CodeBlockNode _ lines => forallb precedence_ok lines
  | IndexNode _ iobject index => precedence_ok iobject && precedence_ok index
  | MethodNode _ source_object _ args => precedence_ok source_object && precedence_ok args
  | FunctionNode _ _ args => precedence_ok args
  | ForeachClauseNode _ _ items block => precedence_ok items && precedence_ok block
  | IfNode _ condition block => precedence_ok condition && precedence_ok block
  | IfClauseNode _ ifs elseblock => forallb precedence_ok ifs && precedence_ok elseblock
  | ParenthesizedNode _ inner => precedence_ok inner
  | TernaryNode _ c t f => precedence_ok c && precedence_ok t && precedence_ok f
  | _ => true
  end.

(** An expression of binding strength [k] or more, all of whose nodes are
    [tight]. *)
Definition Expr (k : nat) {S1 S2 : Type} (n : Node) (_ : S1) (_ : S2) : Prop :=
  (k <= level n)%nat /\ precedence_ok n = true.

Definition Exprs {S1 S2 : Type} (l : list Node) (_ : S1) (_ : S2) : Prop :=
  forallb precedence_ok l = true.

(** What every method of the grammar returns, given operands of the strength
    it expects. *)
Record respects (self : Self.t) : Prop := mkRespects {
  r_statement : frame (Expr 1) (Self.statement self);
  r_e1 : frame (Expr 1) (Self.e1 self);
  r_e2 : frame (Expr 2) (Self.e2 self);
  r_e2_while : forall v, Expr 2 (fst v) tt tt ->
                         frame (fun r => Expr 2 (fst r)) (Self.e2_while self v);
  r_e3 : frame (Expr 3) (Self.e3 self);
  r_e3_while : forall v, Expr 3 v tt tt -> frame (Expr 3) (Self.e3_while self v);
  r_e4 : frame (Expr 4) (Self.e4 self);
  r_e5 : frame (Expr 5) (Self.e5 self);
  r_e5addsub : frame (Expr 5) (Self.e5addsub self);
  r_e5addsub_while : forall v, Expr 5 v tt tt -> frame (Expr 5) (Self.e5addsub_while self v);
  r_e5muldiv : frame (Expr 6) (Self.e5muldiv self);
  r_e5muldiv_while : forall v, Expr 6 v tt tt -> frame (Expr 6) (Self.e5muldiv_while self v);
  r_e6 : frame (Expr 7) (Self.e6 self);
  r_e7 : frame (Expr 8) (Self.e7 self);
  r_e7_while : forall v, Expr 8 v tt tt -> frame (Expr 8) (Self.e7_while self v);
  r_e8 : frame (Expr 9) (Self.e8 self);
  r_key_values : frame (Expr 0) (Self.key_values self);
  r_key_values_while :
    forall v, Expr 0 (fst v) tt tt -> Expr 0 (ArgumentNode (snd v)) tt tt ->
              frame (Expr 0) (Self.key_values_while self v);
  r_args : frame (Expr 0) (Self.args self);
  r_args_while :
    forall v, Expr 0 (fst v) tt tt -> Expr 0 (ArgumentNode (snd v)) tt tt ->
              frame (Expr 0) (Self.args_while self v);
  r_method_call : forall v, Expr 8 v tt tt -> frame (Expr 8) (Self.method_call self v);
  r_index_call : forall v, Expr 8 v tt tt -> frame (Expr 8) (Self.index_call self v);
  r_foreachblock : frame (Expr 0) (Self.foreachblock self);
  r_ifblock : frame (Expr 0) (Self.ifblock self);
  r_elseifblock : forall v, Exprs v tt tt -> frame Exprs (Self.elseifblock self v);
  r_elseblock : frame (Expr 0) (Self.elseblock self);
  r_line : frame (Expr 0) (Self.line self);
  r_codeblock : frame (Expr 0) (Self.codeblock self);
  r_codeblock_while : forall v, Exprs v tt tt -> frame Exprs (Self.codeblock_while self v)
}.

(** ** Proofs: the parser monad *)

Section Wp.
Import Parser ParserOps.
Context {A B : Type}.

Lemma wp_bind (m : M A) (k : A -> M B) s Q :
  wp m s (fun a s' => wp (k a) s' Q) -> wp (bind m k) s Q.
Proof.
  unfold wp, bind. destruct (m s) as [[a s']| |]; auto.
Qed.

Lemma wp_ret (a : A) s (Q : A -> t -> Prop) : Q a s -> wp (ret a) s Q.
Proof. auto. Qed.

Lemma wp_gets (f : t -> A) s (Q : A -> t -> Prop) : Q (f s) s -> wp (gets f) s Q.
Proof. auto. Qed.

Lemma wp_frame (R : A -> t -> t -> Prop) (m : M A) s (Q : A -> t -> Prop) :
  frame R m -> (forall a s', R a s s' -> Q a s') -> wp m s Q.
Proof.
  unfold frame, wp. intros H HQ. specialize (H s).
  destruct (m s) as [[a s']| |]; auto.
Qed.

Lemma wp_ok (m : M A) s a s' (Q : A -> t -> Prop) :
  wp m s Q -> m s = Ok (a, s') -> Q a s'.
Proof. unfold wp. intros H E. rewrite E in H. exact H. Qed.

End Wp.

(** ** Proofs: what the primitives do to the stack and the flag *)

Section Primitives.
Import Parser ParserOps.

Lemma frame_getsym : frame Same getsym.
Proof.
  intros s. unfold wp, getsym.
  destruct (Lexer.next _ _) as [[[[tok|] w] lx]| |]; simpl; auto; split; reflexivity.
Qed.

Lemma frame_begin : frame Push begin.
Proof. intros s. split; reflexivity. Qed.

Lemma frame_end node : frame Pop (end_ node).
Proof.
  intros s. unfold wp, end_. destruct (stack s) as [|token rest] eqn:E; simpl; auto.
  unfold Pop. rewrite E. simpl. repeat split. discriminate.
Qed.

Lemma frame_gets {A : Type} (f : t -> A) : frame Same (gets f).
Proof. intros s. split; reflexivity. Qed.

Lemma frame_ret {A : Type} (a : A) : frame Same (ret a).
Proof. intros s. split; reflexivity. Qed.

Lemma frame_raise {A : Type} (R : A -> t -> t -> Prop) e : frame R (raise e).
Proof. intros s. exact I. Qed.

Lemma frame_stuck {A : Type} (R : A -> t -> t -> Prop) : frame R stuck.
Proof. intros s. exact I. Qed.

Lemma frame_set_in_ternary b : frame (SetTernary b) (modify (set_in_ternary b)).
Proof. intros s. split; reflexivity. Qed.

Lemma frame_warning msg : frame Same (warning msg).
Proof. intros s. split; reflexivity. Qed.

Lemma frame_getline : frame Same getline.
Proof. apply frame_gets. Qed.

Lemma frame_new_BaseNode l c f el ec sp : frame Same (new_BaseNode l c f el ec sp).
Proof. intros s. split; reflexivity. Qed.

End Primitives.

Create HintDb frames.
#[export] Hint Resolve frame_getsym frame_begin frame_end frame_gets frame_ret
  frame_set_in_ternary frame_warning frame_getline frame_new_BaseNode : frames.

(** Unite the facts about the stacks and flags of all states in sight. *)
Ltac name_stacks :=
  repeat match goal with
         | H : context [Parser.stack ?s] |- _ =>
             let x := fresh "stk" in set (x := Parser.stack s) in *; clearbody x
         | |- context [Parser.stack ?s] =>
             let x := fresh "stk" in set (x := Parser.stack s) in *; clearbody x
         | H : context [Parser.in_ternary ?s] |- _ =>
             let x := fresh "flag" in set (x := Parser.in_ternary s) in *; clearbody x
         | |- context [Parser.in_ternary ?s] =>
             let x := fresh "flag" in set (x := Parser.in_ternary s) in *; clearbody x
         end.

Ltac solve_frame :=
  unfold ReopenStarted, Same, Push, Pop, Reopen, SetTernary in *;
  cbv beta in *;
  repeat match goal with
         | p : (_ * _)%type |- _ => destruct p
         end;
  simpl fst in *; simpl snd in *;
  repeat match goal with
         | H : _ /\ _ |- _ => destruct H
         | H : ?a = ?a -> _ |- _ => specialize (H eq_refl)
         end;
  name_stacks; subst; simpl in *;
  solve [repeat split; intros; try congruence; try discriminate].

(** Run a method body symbolically, one statement at a time. *)
Ltac wp_step :=
  lazymatch goal with
  | |- wp (Parser.bind _ _) _ _ => apply wp_bind
  | |- wp (Parser.ret _) _ _ => apply wp_ret; cbv beta
  | |- wp (Parser.gets _) _ _ => apply wp_gets; cbv beta
  | |- wp (Parser.raise _) _ _ => exact I
  | |- wp Parser.stuck _ _ => exact I
  | |- wp (Grammar.error_at _ _) _ _ => exact I
  | |- wp (Grammar.parse_error _ _ _) _ _ => exact I
  | |- wp (if ?b then _ else _) _ _ => destruct b eqn:?
  | |- wp (match ?x with _ => _ end) _ _ => destruct x
  | |- wp _ _ _ =>
      eapply wp_frame; [solve [eauto with frames] | intros ? ? ?; cbv beta]
  end.

Ltac wp_run := repeat (cbv zeta; wp_step).

Section Compound.
Import Parser ParserOps.

Lemma frame_accept x : frame Same (accept x).
Proof. intros s. unfold accept. wp_run; solve_frame. Qed.

Lemma frame_accept_any l : frame Same (accept_any l).
Proof. intros s. unfold accept_any. wp_run; solve_frame. Qed.

Hint Resolve frame_accept : frames.

Lemma frame_expect x : frame Same (expect x).
Proof. intros s. unfold expect. wp_run; solve_frame. Qed.

Lemma frame_block_expect x t : frame Same (block_expect x t).
Proof. intros s. unfold block_expect. wp_run; solve_frame. Qed.

End Compound.

#[export] Hint Resolve frame_accept frame_accept_any frame_expect frame_block_expect : frames.

Section Constructors.
Import Parser ParserOps.

Ltac by_body f := intros s; unfold f; wp_run; solve_frame.

Lemma frame_new_ElementaryNode t : frame Same (new_ElementaryNode t).
Proof. apply frame_new_BaseNode. Qed.
Lemma frame_at_token t : frame Same (at_token t).
Proof. apply frame_new_BaseNode. Qed.
Lemma frame_at_node n : frame Same (at_node n).
Proof. apply frame_new_BaseNode. Qed.

Hint Resolve frame_new_ElementaryNode frame_at_token frame_at_node : frames.

Lemma frame_new_BooleanNode t : frame Same (new_BooleanNode t).
Proof. by_body new_BooleanNode. Qed.
Lemma frame_new_str_node f t : frame Same (new_str_node f t).
Proof. by_body new_str_node. Qed.
Lemma frame_new_IdNode t : frame Same (new_IdNode t).
Proof. apply frame_new_str_node. Qed.
Lemma frame_new_StringNode t : frame Same (new_StringNode t).
Proof. apply frame_new_str_node. Qed.
Lemma frame_new_FormatStringNode t : frame Same (new_FormatStringNode t).
Proof. apply frame_new_str_node. Qed.
Lemma frame_new_MultilineFormatStringNode t : frame Same (new_MultilineFormatStringNode t).
Proof. apply frame_new_str_node. Qed.
Lemma frame_new_NumberNode t : frame Same (new_NumberNode t).
Proof. by_body new_NumberNode. Qed.
Lemma frame_new_ContinueNode t : frame Same (new_ContinueNode t).
Proof. by_body new_ContinueNode. Qed.
Lemma frame_new_BreakNode t : frame Same (new_BreakNode t).
Proof. by_body new_BreakNode. Qed.
Lemma frame_new_ArgumentNode t : frame Same (new_ArgumentNode t).
Proof. by_body new_ArgumentNode. Qed.
Lemma frame_new_ArrayNode a l c el ec : frame Same (new_ArrayNode a l c el ec).
Proof. by_body new_ArrayNode. Qed.
Lemma frame_new_DictNode a l c el ec : frame Same (new_DictNode a l c el ec).
Proof. by_body new_DictNode. Qed.
Lemma frame_new_EmptyNode l c f : frame Same (new_EmptyNode l c f).
Proof. by_body new_EmptyNode. Qed.
Lemma frame_new_OrNode l r : frame Same (new_OrNode l r).
Proof. by_body new_OrNode. Qed.
Lemma frame_new_AndNode l r : frame Same (new_AndNode l r).
Proof. by_body new_AndNode. Qed.
Lemma frame_new_ComparisonNode c l r : frame Same (new_ComparisonNode c l r).
Proof. by_body new_ComparisonNode. Qed.
Lemma frame_new_ArithmeticNode o l r : frame Same (new_ArithmeticNode o l r).
Proof. by_body new_ArithmeticNode. Qed.
Lemma frame_new_NotNode t v : frame Same (new_NotNode t v).
Proof. by_body new_NotNode. Qed.
Lemma frame_new_IndexNode o i : frame Same (new_IndexNode o i).
Proof. by_body new_IndexNode. Qed.
Lemma frame_new_MethodNode f l c o n a : frame Same (new_MethodNode f l c o n a).
Proof. by_body new_MethodNode. Qed.
Lemma frame_new_FunctionNode f l c el ec n a : frame Same (new_FunctionNode f l c el ec n a).
Proof. by_body new_FunctionNode. Qed.
Lemma frame_new_AssignmentNode f l c n v : frame Same (new_AssignmentNode f l c n v).
Proof. by_body new_AssignmentNode. Qed.
Lemma frame_new_PlusAssignmentNode f l c n v : frame Same (new_PlusAssignmentNode f l c n v).
Proof. by_body new_PlusAssignmentNode. Qed.
Lemma frame_new_ForeachClauseNode t vs i b : frame Same (new_ForeachClauseNode t vs i b).
Proof. by_body new_ForeachClauseNode. Qed.
Lemma frame_new_IfNode l c b : frame Same (new_IfNode l c b).
Proof. by_body new_IfNode. Qed.
Lemma frame_new_ParenthesizedNode i l c el ec : frame Same (new_ParenthesizedNode i l c el ec).
Proof. by_body new_ParenthesizedNode. Qed.
Lemma frame_new_UMinusNode t v : frame Same (new_UMinusNode t v).
Proof. by_body new_UMinusNode. Qed.
Lemma frame_new_TernaryNode c t f : frame Same (new_TernaryNode c t f).
Proof. by_body new_TernaryNode. Qed.
Lemma frame_set_kwarg a n nv v : frame Same (set_kwarg a n nv v).
Proof. by_body set_kwarg. Qed.
Lemma frame_str_value t : frame Same (Grammar.str_value t).
Proof. by_body Grammar.str_value. Qed.

End Constructors.

#[export] Hint Resolve frame_new_ElementaryNode frame_at_token frame_at_node
  frame_new_BooleanNode frame_new_IdNode frame_new_StringNode
  frame_new_FormatStringNode frame_new_MultilineFormatStringNode
  frame_new_NumberNode frame_new_ContinueNode frame_new_BreakNode
  frame_new_ArgumentNode frame_new_ArrayNode frame_new_DictNode
  frame_new_EmptyNode frame_new_OrNode frame_new_AndNode
  frame_new_ComparisonNode frame_new_ArithmeticNode frame_new_NotNode
  frame_new_IndexNode frame_new_MethodNode frame_new_FunctionNode
  frame_new_AssignmentNode frame_new_PlusAssignmentNode
  frame_new_ForeachClauseNode frame_new_IfNode frame_new_ParenthesizedNode
  frame_new_UMinusNode frame_new_TernaryNode frame_set_kwarg frame_str_value : frames.


(** ** Proofs: every method leaves the position stack as it found it *)

Lemma frame_e9 : frame Same Grammar.e9.
Proof. intros s. unfold Grammar.e9. wp_run; solve_frame. Qed.

#[export] Hint Resolve frame_e9 : frames.

Section Balance.
Import Parser ParserOps.

Variable self : Self.t.
Hypothesis IH : balanced self.

Lemma frame_e4_for items left :
  frame (fun r => match r with Some _ => Pop r | None => Same r end)
        (Grammar.e4_for self items left).
Proof.
  destruct IH.
  induction items as [|[nodename operator_type] rest IHrest]; intros s; simpl.
  - wp_run; solve_frame.
  - wp_run; cbv beta in *;
      try match goal with r : option Node |- _ => destruct r end; solve_frame.
Qed.

Hint Resolve frame_e4_for : frames.

Ltac method f := intros s; unfold f; wp_run; solve_frame.

Lemma balanced_step : balanced (Grammar.step self).
Proof.
  destruct IH.
  constructor; simpl; intros.
  - method Grammar.statement.
  - method Grammar.e1.
  - method Grammar.e2.
  - method Grammar.e2_while.
  - method Grammar.e3.
  - method Grammar.e3_while.
  - intros s; unfold Grammar.e4; wp_run; cbv beta in *;
      try match goal with r : option Node |- _ => destruct r end; solve_frame.
  - method Grammar.e5.
  - method Grammar.e5addsub.
  - method Grammar.e5addsub_while.
  - method Grammar.e5muldiv.
  - method Grammar.e5muldiv_while.
  - method Grammar.e6.
  - method Grammar.e7.
  - method Grammar.e7_while.
  - method Grammar.e8.
  - method Grammar.key_values.
  - method Grammar.key_values_while.
  - method Grammar.args.
  - method Grammar.args_while.
  - method Grammar.method_call.
  - method Grammar.index_call.
  - method Grammar.foreachblock.
  - method Grammar.ifblock.
  - method Grammar.elseifblock.
  - method Grammar.elseblock.
  - method Grammar.line.
  - method Grammar.codeblock.
  - method Grammar.codeblock_while.
Qed.

End Balance.

Lemma balanced_out_of_fuel : balanced Grammar.out_of_fuel.
Proof. constructor; simpl; intros; intros s; exact I. Qed.

Lemma balanced_methods fuel : balanced (Grammar.methods fuel).
Proof.
  induction fuel as [|fuel IH]; simpl.
  - apply balanced_out_of_fuel.
  - apply balanced_step, IH.
Qed.

Section ParseLevel.
Import Parser ParserOps.

Lemma frame_attach_comment c : frame Same (Attach.attach_comment c).
Proof.
  intros s. unfold Attach.attach_comment.
  wp_run; try solve_frame;
    (apply wp_frame with (R := Same);
     [intros s0; split; reflexivity | intros; solve_frame]).
Qed.

Hint Resolve frame_attach_comment : frames.

Lemma frame_attach_comments cs : frame Same (Attach.attach_comments cs).
Proof.
  induction cs as [|c cs IH]; intros s; simpl; wp_run; solve_frame.
Qed.

Lemma init_stack code filename self :
  init code filename = Ok self -> stack self = [] /\ in_ternary self = false.
Proof.
  unfold init. destruct (getsym _) as [[u s]| |]; [|discriminate..].
  intros E. injection E as <-. split; reflexivity.
Qed.

End ParseLevel.

#[export] Hint Resolve frame_attach_comment frame_attach_comments : frames.

(** ** C9: the position stack is empty when [parse] returns *)

(** C9.  Whenever [Parser.parse] returns, the position stack is empty; the
    grammar itself leaves it empty at the point of the assertion (every
    [begin] has met its [end]), and a grammar that left tokens on it would
    make [parse] raise [AssertionError] instead of returning. *)
Theorem C9_position_stack_empty_at_return :
  forall fuel code filename,
    (forall block self',
        parse_fuel fuel code filename = Ok (block, self') -> Parser.stack self' = [])
    /\ (forall self block self1 b self2,
           ParserOps.init code filename = Ok self ->
           Self.codeblock (Grammar.methods fuel) self = Ok (block, self1) ->
           ParserOps.expect "eof" self1 = Ok (b, self2) ->
           Parser.stack self2 = [])
    /\ (forall (g : Self.t) self block self1 b self2,
           Self.codeblock g self = Ok (block, self1) ->
           ParserOps.expect "eof" self1 = Ok (b, self2) ->
           Parser.stack self2 <> [] ->
           Attach.parse g self = Raise AssertionError).
Proof.
  intros fuel code filename.
  assert (Hgrammar : forall self block self1 b self2,
             ParserOps.init code filename = Ok self ->
             Self.codeblock (Grammar.methods fuel) self = Ok (block, self1) ->
             ParserOps.expect "eof" self1 = Ok (b, self2) ->
             Parser.stack self2 = []).
  { intros self block self1 b self2 Hinit Hblock Hexpect.
    destruct (init_stack _ _ _ Hinit) as [Hstack _].
    pose proof (wp_ok _ _ _ _ _ (b_codeblock _ (balanced_methods fuel) self) Hblock) as [H1 _].
    pose proof (wp_ok _ _ _ _ _ (frame_expect "eof" self1) Hexpect) as [H2 _].
    congruence. }
  split; [|split].
  - intros block self' Hparse. unfold parse_fuel in Hparse.
    destruct (ParserOps.init code filename) as [self| |] eqn:Hinit; try discriminate.
    unfold Attach.parse, Parser.bind in Hparse.
    destruct (Self.codeblock _ self) as [[blk self1]| |] eqn:Hblock; try discriminate.
    destruct (ParserOps.expect "eof" self1) as [[b self2]| |] eqn:Hexpect; try discriminate.
    simpl in Hparse.
    rewrite (Hgrammar _ _ _ _ _ eq_refl Hblock Hexpect) in Hparse. simpl in Hparse.
    destruct (Attach.attach_comments _ self2) as [[u self3]| |] eqn:Hattach; try discriminate.
    injection Hparse as _ <-.
    pose proof (wp_ok _ _ _ _ _ (frame_attach_comments _ self2) Hattach) as [H3 _].
    rewrite H3. exact (Hgrammar _ _ _ _ _ eq_refl Hblock Hexpect).
  - exact Hgrammar.
  - intros g self block self1 b self2 Hblock Hexpect Hne.
    unfold Attach.parse, Parser.bind. rewrite Hblock, Hexpect. simpl.
    destruct (Parser.stack self2); [congruence|reflexivity].
Qed.

Lemma C9_witness :
  exists block s,
    parse_fuel 100 "x = f(1)" "meson.build" = Ok (block, s)
    /\ Parser.stack s = [].
Proof.
  let r := eval vm_compute in (parse_fuel 100 "x = f(1)" "meson.build") in
  match r with
  | Ok (?b, ?s) =>
      exists b, s;
      assert (E : parse_fuel 100 "x = f(1)" "meson.build" = Ok (b, s))
        by (vm_compute; reflexivity);
      exact (conj E (proj1 (C9_position_stack_empty_at_return 100 "x = f(1)" "meson.build")
                       _ _ E))
  end.
Defined.


(** ** The steps of a method, one at a time *)

Section Steps.
Import Parser ParserOps.

Lemma accept_no x s : String.eqb (tid (current s)) x = false -> accept x s = Ok (false, s).
Proof. intros E. unfold accept, bind, gets. rewrite E. reflexivity. Qed.

Lemma accept_yes x s u s' :
  tid (current s) = x -> getsym s = Ok (u, s') -> accept x s = Ok (true, s').
Proof.
  intros E G. unfold accept, bind, gets. rewrite E, String.eqb_refl, G. reflexivity.
Qed.

Lemma begin_then {A : Type} (m : M A) s :
  (begin;; m) s = m (set_stack (current s :: stack s) s).
Proof. reflexivity. Qed.

End Steps.

(** ** C5: no ternary inside a ternary *)



Section MoreSteps.
Import Parser ParserOps.

Lemma block_expect_yes x t s u s' :
  tid (current s) = x -> getsym s = Ok (u, s') -> block_expect x t s = Ok (true, s').
Proof.
  intros E G. unfold block_expect. unfold bind at 1.
  rewrite (accept_yes _ _ _ _ E G). reflexivity.
Qed.

End MoreSteps.

(** ** C6: only a plain identifier can be called *)

Section PostfixLoop.
Import Parser ParserOps.

(** The loop of [e7] reads a [.] or a [[]: with an opening parenthesis as
    the current token it is over at once, and nothing has been read. *)
Lemma e7_while_leaves_parenthesis self left s :
  tid (current s) = "lparen" -> Grammar.e7_while self left s = Ok (left, s).
Proof.
  intros Hl. unfold Grammar.e7_while.
  unfold bind at 1. rewrite accept_no by (rewrite Hl; reflexivity).
  unfold bind at 1. unfold ret at 1.
  unfold bind at 1. cbn [fst snd]. rewrite accept_no by (rewrite Hl; reflexivity).
  reflexivity.
Qed.

End PostfixLoop.




(** ** C4: when a newline becomes a token *)

Lemma newline_matches_eol self r :
  rest_of self = String LF r -> matches_eol self.
Proof. intros E. unfold matches_eol. rewrite E. destruct r; reflexivity. Qed.

(** C4, as the code has it.  Where the lexer matches a bare newline, it
    yields an end-of-line token if and only if none of the three nesting
    counters is positive (a counter below zero, after an unmatched closing
    bracket, does not hold the token back); otherwise the newline is
    swallowed.  The line counter advances in both cases. *)
Theorem C4_newline_token_unless_a_counter_is_positive :
  forall filename self,
    matches_eol self ->
    let positive := (0 <? Lexer.par_count self) || (0 <? Lexer.bracket_count self)
                    || (0 <? Lexer.curl_count self) in
    let loc' := Lexer.loc self + 1 in
    let col := Lexer.loc self - Lexer.line_start self in
    let after := Lexer.set_line (Lexer.set_pos self loc' col) (Lexer.lineno self + 1) loc' in
    let eol := mkToken "eol" filename (Lexer.line_start self) (Lexer.lineno self) col
                       (Lexer.loc self, loc') VNone in
    Lexer.lex_step filename self
    = Ok (if positive then Lexer.Continue else Lexer.Yield eol, [], after)
    /\ (yields_eol filename self
        <-> Lexer.par_count self <= 0 /\ Lexer.bracket_count self <= 0
            /\ Lexer.curl_count self <= 0)
    /\ (swallowed filename self
        <-> 0 < Lexer.par_count self \/ 0 < Lexer.bracket_count self
            \/ 0 < Lexer.curl_count self)
    /\ Lexer.lineno after = Lexer.lineno self + 1.
Proof.
  intros filename self Hm positive loc' col after eol.
  assert (Hstep : Lexer.lex_step filename self
                  = Ok (if positive then Lexer.Continue else Lexer.Yield eol, [], after)).
  { unfold Lexer.lex_step. fold (rest_of self). rewrite Hm. simpl.
    fold positive. destruct positive; reflexivity. }
  split; [exact Hstep|]. split; [|split; [|reflexivity]].
  - unfold yields_eol. rewrite Hstep. split.
    + intros (tok & w & self' & E & _).
      destruct positive eqn:P; [discriminate|].
      unfold positive in P. lia.
    + intros H. assert (P : positive = false) by (unfold positive; lia).
      rewrite P. exists eol, [], after. split; reflexivity.
  - unfold swallowed. rewrite Hstep. split.
    + intros (w & self' & E).
      destruct positive eqn:P; [|discriminate].
      unfold positive in P. lia.
    + intros H. assert (P : positive = true) by (unfold positive; lia).
      rewrite P. exists [], after. reflexivity.
Qed.

Lemma C4_witness :
  matches_eol (Lexer.init (chr LF))
  /\ Lexer.lex_step "meson.build" (Lexer.init (chr LF))
     = Ok (Lexer.Yield (mkToken "eol" "meson.build" 0 1 0 (0, 1) VNone), [],
           Lexer.mk (chr LF) [] 1 2 1 0 0 0 0).
Proof.
  assert (H : matches_eol (Lexer.init (chr LF))) by (vm_compute; reflexivity).
  split; [exact H|].
  exact (proj1 (C4_newline_token_unless_a_counter_is_positive "meson.build" _ H)).
Defined.

(** The claim as it was stated fails after an unmatched closing parenthesis:
    in [")\n"] the newline is met with the parenthesis counter at -1, and the
    end-of-line token is yielded all the same. *)
Lemma C4_counterexample :
  ~ (forall code filename n self,
        turns n filename (Lexer.init code) = Ok self ->
        matches_eol self ->
        (yields_eol filename self
         <-> Lexer.par_count self = 0 /\ Lexer.bracket_count self = 0
             /\ Lexer.curl_count self = 0)).
Proof.
  intros H.
  pose (self := Lexer.mk (")" +:+ chr LF) [] 0 1 1 (-1) 0 0 0).
  assert (Hturn : turns 1 "meson.build" (Lexer.init (")" +:+ chr LF)) = Ok self)
    by (vm_compute; reflexivity).
  assert (Hm : matches_eol self) by (vm_compute; reflexivity).
  destruct (H _ _ _ _ Hturn Hm) as [Hyes _].
  assert (Hy : yields_eol "meson.build" self).
  { vm_compute. repeat eexists. }
  destruct (Hyes Hy) as [Hpar _]. vm_compute in Hpar. discriminate.
Qed.

(** The two cases on whole texts: inside the parentheses the newline gives no
    token, after the unmatched closing parenthesis it does. *)
Example lex_newline_inside_parentheses :
  match Lexer.lex ("f(1," +:+ chr LF +:+ "2)" +:+ chr LF) "meson.build" with
  | Ok (tokens, _) => map tid tokens
  | _ => []
  end = ["id"; "lparen"; "number"; "comma"; "number"; "rparen"; "eol"].
Proof. vm_compute. reflexivity. Qed.

Example lex_newline_after_unmatched_parenthesis :
  match Lexer.lex (")" +:+ chr LF) "meson.build" with
  | Ok (tokens, self) => (map tid tokens, Lexer.par_count self)
  | _ => ([], 0)
  end = (["rparen"; "eol"], -1).
Proof. vm_compute. reflexivity. Qed.

(** ** C2: the third pass of the comment attacher *)

Lemma nearest_picks skip distance ns d0 node0 n :
  Attach.nearest skip distance ns d0 node0 = Some n ->
  node0 = Some n \/ exists span, In (n, span) ns /\ skip span = false.
Proof.
  revert d0 node0.
  induction ns as [|[m span] rest IH]; intros d0 node0 H; simpl in H.
  - left. exact H.
  - destruct (skip span) eqn:Hskip.
    + destruct (IH _ _ H) as [E|(sp & Hin & Hs)]; [left; exact E|].
      right. exists sp. split; [right; exact Hin|exact Hs].
    + destruct (distance span <? d0).
      * destruct (IH _ _ H) as [E|(sp & Hin & Hs)].
        -- injection E as <-. right. exists span. split; [left; reflexivity|exact Hskip].
        -- right. exists sp. split; [right; exact Hin|exact Hs].
      * destruct (IH _ _ H) as [E|(sp & Hin & Hs)]; [left; exact E|].
        right. exists sp. split; [right; exact Hin|exact Hs].
Qed.

(** C2, what the code does instead.  The third loop of [attach_comment]
    never picks a node that starts after the end of the comment: it skips
    exactly those.  With only such nodes in the set the comment is attached
    nowhere and the final assertion fails; and in ["#c\nx"], where the third
    loop is reached, the identifier [x] that follows the comment does not
    receive it, in whatever order the set of nodes is gone through. *)
Theorem C2_following_pass_skips_the_nodes_after_the_comment :
  (forall ns comment n,
      Attach.following ns comment = Some n ->
      exists span, In (n, span) ns /\ fst span <= snd comment)
  /\ Attach.place [(0%nat, (10, 12))] (0, 5) = Attach.Failed
  /\ (exists b bx s c,
         parse ("#c" +:+ chr LF +:+ "x") = Ok (CodeBlockNode b [IdNode bx "x"], s)
         /\ Lexer.comments (Parser.lexer s) = [c]
         /\ c_bytespan c = (0, 2)
         /\ span_of s (IdNode bx "x") = Some (3, 0)
         /\ Attach.spans (Parser.heap s) (Parser.nodes s)
            = Some [(1%nat, (2, 2)); (node_id bx, (3, 0)); (node_id b, (2, 0))]
         /\ forall ns,
              Permutation ns [(1%nat, (2, 2)); (node_id bx, (3, 0)); (node_id b, (2, 0))] ->
              Attach.enclosing ns (0, 2) = None
              /\ Attach.preceding ns (0, 2) = None
              /\ Attach.place ns (0, 2) <> Attach.Trailing (node_id bx)).
Proof.
  assert (Hgeneral : forall ns comment n,
             Attach.following ns comment = Some n ->
             exists span, In (n, span) ns /\ fst span <= snd comment).
  { intros ns comment n H.
    destruct (nearest_picks _ _ _ _ _ _ H) as [E|(span & Hin & Hskip)]; [discriminate|].
    exists span. split; [exact Hin|]. simpl in Hskip. lia. }
  split; [exact Hgeneral|]. split; [reflexivity|].
  let r := eval vm_compute in (parse ("#c" +:+ chr LF +:+ "x")) in
  match r with
  | Ok (CodeBlockNode ?b [IdNode ?bx _], ?s) =>
      exists b, bx, s, (mkComment 0 1 0 (0, 2) "#c")
  end.
  do 5 (split; [vm_compute; reflexivity|]).
  intros ns Hperm. simpl in Hperm. simpl node_id.
  assert (Hin : forall n span, In (n, span) ns ->
                  (n, span) = (1%nat, (2, 2)) \/ (n, span) = (2%nat, (3, 0))
                  \/ (n, span) = (0%nat, (2, 0))).
  { intros n span H. apply (Permutation_in _ Hperm) in H.
    destruct H as [E|[E|[E|[]]]]; rewrite <- E; auto. }
  assert (Hnone : forall skip distance,
             (forall n span, In (n, span) ns -> skip span = true) ->
             Attach.nearest skip distance ns Attach.smallest_distance_init None = None).
  { intros skip distance Hall.
    destruct (Attach.nearest skip distance ns _ None) as [n|] eqn:E; [|reflexivity].
    destruct (nearest_picks _ _ _ _ _ _ E) as [E'|(span & Hi & Hs)]; [discriminate|].
    rewrite (Hall _ _ Hi) in Hs. discriminate. }
  assert (He : Attach.enclosing ns (0, 2) = None).
  { apply Hnone. intros n span H.
    destruct (Hin _ _ H) as [E|[E|E]]; injection E as -> ->; reflexivity. }
  assert (Hp : Attach.preceding ns (0, 2) = None).
  { apply Hnone. intros n span H.
    destruct (Hin _ _ H) as [E|[E|E]]; injection E as -> ->; reflexivity. }
  split; [exact He|]. split; [exact Hp|].
  unfold Attach.place. rewrite He, Hp.
  destruct (length ns =? 0)%nat; [discriminate|].
  destruct (Attach.following ns (0, 2)) as [n|] eqn:Hf; [|discriminate].
  intros E. injection E as ->.
  destruct (Hgeneral _ _ _ Hf) as (span & Hi & Hle).
  destruct (Hin _ _ Hi) as [E|[E|E]]; injection E as ?; subst; try discriminate.
  simpl in Hle. lia.
Qed.

Lemma C2_witness :
  Attach.following [(0%nat, (2, 2)); (1%nat, (3, 5))] (0, 2) = Some 0%nat
  /\ exists span, In (0%nat, span) [(0%nat, (2, 2)); (1%nat, (3, 5))] /\ fst span <= 2.
Proof.
  assert (H : Attach.following [(0%nat, (2, 2)); (1%nat, (3, 5))] (0, 2) = Some 0%nat)
    by reflexivity.
  exact (conj H (proj1 C2_following_pass_skips_the_nodes_after_the_comment _ _ _ H)).
Defined.

(** ** C3: byte spans at the end of the input *)

(** C3, what the code does instead.  The token that [getsym] makes up at the
    end of the input has the byte span (0, 0), so a node that [end] completes
    there gets 0 as the end of its span.  In ["x\n"] the root block has the
    span (0, 0) and its child [x] the span (0, 1): the parent does not
    enclose the child.  Away from the end of the input the loops of the
    binary operators do the same harm: they [begin] again after each operand
    and [end] the finished node once more against that token, so that the
    product in ["1 * 2 + 3\n"] is left with the empty span (6, 6). *)
Theorem C3_span_of_root_ends_at_zero :
  (forall c, t_bytespan (ParserOps.eof_after c) = (0, 0))
  /\ (forall node self c u self',
         Parser.current self = ParserOps.eof_after c ->
         ParserOps.end_ node self = Ok (u, self') ->
         exists start, span_of self' node = Some (start, 0))
  /\ (exists b bx s,
         parse ("x" +:+ chr LF) = Ok (CodeBlockNode b [IdNode bx "x"], s)
         /\ span_of s (CodeBlockNode b [IdNode bx "x"]) = Some (0, 0)
         /\ span_of s (IdNode bx "x") = Some (0, 1)
         /\ encloses (0, 0) (0, 1) = false
         /\ encloses_children s (CodeBlockNode b [IdNode bx "x"]) = false)
  /\ (exists b b1 b2 l r r1 s,
         let product := ArithmeticNode b2 "mul" l r in
         parse ("1 * 2 + 3" +:+ chr LF)
         = Ok (CodeBlockNode b [ArithmeticNode b1 "add" product r1], s)
         /\ span_of s product = Some (6, 6)
         /\ span_of s l = Some (0, 2)
         /\ span_of s r = Some (4, 6)
         /\ encloses_children s product = false).
Proof.
  split; [reflexivity|]. split.
  - intros node self c u self' Hspan Hend.
    unfold ParserOps.end_ in Hend.
    destruct (Parser.stack self) as [|token rest]; [discriminate|].
    injection Hend as _ <-.
    exists (fst (t_bytespan token)).
    unfold span_of. simpl. rewrite lookup_insert_eq. simpl. rewrite Hspan. reflexivity.
  - split.
    + let r := eval vm_compute in (parse ("x" +:+ chr LF)) in
      match r with
      | Ok (CodeBlockNode ?b [IdNode ?bx _], ?s) => exists b, bx, s
      end.
      repeat split; vm_compute; reflexivity.
    + let r := eval vm_compute in (parse ("1 * 2 + 3" +:+ chr LF)) in
      match r with
      | Ok (CodeBlockNode ?b [ArithmeticNode ?b1 _ (ArithmeticNode ?b2 _ ?l ?r) ?r1], ?s) =>
          exists b, b1, b2, l, r, r1, s
      end.
      repeat split; vm_compute; reflexivity.
Qed.

Lemma C3_witness :
  exists self c u self' start,
    Parser.current self = ParserOps.eof_after c
    /\ ParserOps.end_ (EmptyNode (mkBaseNode 0 1 0 EmptyString 1 0)) self = Ok (u, self')
    /\ span_of self' (EmptyNode (mkBaseNode 0 1 0 EmptyString 1 0)) = Some (start, 0).
Proof.
  pose (tok := mkToken "id" EmptyString 0 1 4 (4, 5) (VStr "x")).
  pose (self := Parser.mk (Lexer.init EmptyString) EmptyString (ParserOps.eof_after tok)
                          false [tok] [] ∅ 1 []).
  assert (H1 : Parser.current self = ParserOps.eof_after tok) by reflexivity.
  let r := eval vm_compute in (ParserOps.end_ (EmptyNode (mkBaseNode 0 1 0 EmptyString 1 0)) self) in
  match r with
  | Ok (?u, ?s') =>
      assert (H3 : ParserOps.end_ (EmptyNode (mkBaseNode 0 1 0 EmptyString 1 0)) self = Ok (u, s'))
        by (vm_compute; reflexivity);
      destruct (proj1 (proj2 C3_span_of_root_ends_at_zero) _ _ _ _ _ H1 H3) as [start Hs];
      exists self, tok, u, s', start
  end.
  repeat split; assumption.
Defined.

(** ** C1: formatting twice *)

(** C1, what the code does instead.  ["a not in b"] parses, and the
    fixed-style formatter writes its comparison with the operator [notin],
    the internal name of the comparison, where the grammar knows only
    [not in].  The formatted text does not parse any more, so the second
    pass gives no lines at all.  (Statements for which the formatter has no
    handler make a second difference: ["(a)"] gives two empty lines, and
    these give one.) *)
Theorem C1_second_pass_fails_on_not_in :
  format_text "a not in b" = Ok ["a notin b"; EmptyString]
  /\ render ["a notin b"; EmptyString] = "a notin b" +:+ chr LF
  /\ format_text (render ["a notin b"; EmptyString])
     = Raise (ParseException "Expecting eof got id." "a notin b" 1 2)
  /\ format_text "(a)" = Ok [EmptyString; EmptyString]
  /\ format_text (render [EmptyString; EmptyString]) = Ok [EmptyString].
Proof. repeat split; vm_compute; reflexivity. Qed.

(** ** C7: a keyword argument given twice *)

(** C7, as the code has it.  ["f(a : 1, a : 2)"] parses without an
    exception and the call keeps both pairs; [mlog.warning] is called twice,
    first with the message that names the key between double quotes (the
    character 034), then with the one that announces the future error and
    names no key.  In general [set_kwarg] on a key that is already there
    appends the pair and gives the sink these two messages, with the name of
    the key in the first; on a new key it appends the pair and emits
    nothing. *)
Theorem C7_duplicate_keyword_argument_warns_twice :
  (exists b0 b1 ba k1 v1 k2 v2 cs s,
      parse "f(a : 1, a : 2)"
      = Ok (CodeBlockNode b0
              [FunctionNode b1 "f"
                 (ArgumentNode
                    (mkArgList ba [] cs
                       [(IdNode k1 "a", NumberNode v1 1); (IdNode k2 "a", NumberNode v2 2)]
                       false))], s)
      /\ Parser.mlog s
         = ["Keyword argument " +:+ String "034" ("a" +:+ String "034" " defined multiple times.");
            "This will be an error in future Meson releases."])
  /\ (forall a name name_value value s,
         existsb (fun kv => match fst kv with
                            | IdNode _ v => String.eqb name_value v
                            | _ => false
                            end) (kwargs a) = true ->
         exists s',
           ParserOps.set_kwarg a name name_value value s
           = Ok (ParserOps.set_kwarg_no_check a name value, s')
           /\ kwargs (ParserOps.set_kwarg_no_check a name value)
              = kwargs a ++ [(name, value)]
           /\ Parser.mlog s'
              = Parser.mlog s
                ++ ["Keyword argument "
                    +:+ String "034" (name_value +:+ String "034" " defined multiple times.");
                    "This will be an error in future Meson releases."])
  /\ (forall a name name_value value s,
         existsb (fun kv => match fst kv with
                            | IdNode _ v => String.eqb name_value v
                            | _ => false
                            end) (kwargs a) = false ->
         ParserOps.set_kwarg a name name_value value s
         = Ok (ParserOps.set_kwarg_no_check a name value, s)
         /\ kwargs (ParserOps.set_kwarg_no_check a name value)
            = kwargs a ++ [(name, value)]).
Proof.
  split; [|split].
  - let r := eval vm_compute in (parse "f(a : 1, a : 2)") in
    match r with
    | Ok (CodeBlockNode ?b0 [FunctionNode ?b1 _ (ArgumentNode
            (mkArgList ?ba _ ?cs [(IdNode ?k1 _, NumberNode ?v1 _);
                                  (IdNode ?k2 _, NumberNode ?v2 _)] _))], ?s) =>
        exists b0, b1, ba, k1, v1, k2, v2, cs, s
    end.
    split; vm_compute; reflexivity.
  - intros a name name_value value s H.
    unfold ParserOps.set_kwarg, Parser.bind. rewrite H.
    eexists. split; [reflexivity|]. split; [reflexivity|].
    simpl. rewrite <- app_assoc. reflexivity.
  - intros a name name_value value s H.
    unfold ParserOps.set_kwarg, Parser.bind. rewrite H. split; reflexivity.
Qed.

Lemma C7_witness :
  let key := IdNode (mkBaseNode 2 1 2 "meson.build" 1 2) "a" in
  let one := NumberNode (mkBaseNode 4 1 6 "meson.build" 1 6) 1 in
  let a := mkArgList (mkBaseNode 3 1 4 "meson.build" 1 4) [] [] [(key, one)] false in
  let s := Parser.mk (Lexer.init EmptyString) EmptyString (mkToken "eof" EmptyString 0 0 0 (0, 0) VNone)
                     false [] [] ∅ 5 [] in
  exists s',
    ParserOps.set_kwarg a key "a" one s = Ok (ParserOps.set_kwarg_no_check a key one, s')
    /\ Parser.mlog s'
       = ["Keyword argument " +:+ String "034" ("a" +:+ String "034" " defined multiple times.");
          "This will be an error in future Meson releases."].
Proof.
  intros key one a s.
  destruct (proj1 (proj2 C7_duplicate_keyword_argument_warns_twice) a key "a" one s eq_refl)
    as (s' & H1 & _ & H3).
  exists s'. split; [exact H1|exact H3].
Defined.

(** The claim as it was stated fails on its own example: parsing
    ["f(a : 1, a : 2)"] does not leave exactly one warning with the sink,
    whatever it says. *)
Lemma C7_counterexample :
  ~ (exists block s w,
        parse "f(a : 1, a : 2)" = Ok (block, s) /\ Parser.mlog s = [w]).
Proof.
  intros (block & s & w & Hp & Hw).
  vm_compute in Hp. injection Hp as _ <-. discriminate Hw.
Qed.

(** ** C10: node kinds the fixed-style formatter has no method for *)

(** C10.  [accept] does nothing for a node whose class has no [visit_]
    method in the formatter.  [ParenthesizedNode] and
    [MultilineFormatStringNode] are such classes: the formatter is left as it
    was, whatever the node holds, and the formatted text of a program shows
    neither the parentheses nor what is between them, nor a multi-line format
    string. *)
Theorem C10_nodes_without_a_visit_method_emit_nothing :
  (forall node self,
      AstFormatter.hasattr ("visit_" +:+ type_name node) = false ->
      AstFormatter.accept node self = self)
  /\ AstFormatter.hasattr "visit_ParenthesizedNode" = false
  /\ AstFormatter.hasattr "visit_MultilineFormatStringNode" = false
  /\ (forall base inner self,
         AstFormatter.accept (ParenthesizedNode base inner) self = self)
  /\ (forall base value self,
         AstFormatter.accept (MultilineFormatStringNode base value) self = self)
  /\ format_text "x = (1 + 2)" = Ok ["x = "; EmptyString]
  /\ format_text "x = f'''a'''" = Ok ["x = "; EmptyString].
Proof.
  split.
  - intros node self H.
    destruct node; try (vm_compute in H; discriminate H); reflexivity.
  - repeat split; try reflexivity; vm_compute; reflexivity.
Qed.

Lemma C10_witness :
  AstFormatter.hasattr ("visit_" +:+ type_name (EmptyNode (mkBaseNode 0 1 0 EmptyString 1 0))) = false
  /\ AstFormatter.accept (EmptyNode (mkBaseNode 0 1 0 EmptyString 1 0)) AstFormatter.init
     = AstFormatter.init.
Proof.
  assert (H : AstFormatter.hasattr
                ("visit_" +:+ type_name (EmptyNode (mkBaseNode 0 1 0 EmptyString 1 0))) = false)
    by (vm_compute; reflexivity).
  split; [exact H|].
  exact (proj1 C10_nodes_without_a_visit_method_emit_nothing _ _ H).
Defined.

(** ** Proofs: every tree the grammar builds respects the precedence table *)

Section Precedence.
Import Parser ParserOps.

Lemma frame_any {A : Type} (m : M A) : frame (fun _ _ _ => True) m.
Proof. intros s. unfold wp. destruct (m s) as [[a s']| |]; exact I. Qed.

Lemma value_accept_any l :
  frame (fun r _ _ => r = EmptyString \/ In r l) (accept_any l).
Proof.
  intros s. unfold accept_any, wp, bind, gets.
  destruct (mem_str (tid (current s)) l) eqn:E.
  - destruct (getsym s) as [[u s']| |]; try exact I. simpl. right.
    unfold mem_str in E. apply existsb_exists in E as (x & Hin & Hx).
    apply String.eqb_eq in Hx. subst x. exact Hin.
  - simpl. left. reflexivity.
Qed.

End Precedence.

Section Respect.
Import Parser ParserOps.
#[local] Arguments Nat.leb : simpl never.

Ltac solve_value :=
  unfold Expr, Exprs in *; cbv beta in *;
  repeat match goal with
         | p : (_ * _)%type |- _ => destruct p
         | a : ArgList _ |- _ => destruct a
         end;
  simpl fst in *; simpl snd in *;
  repeat match goal with
         | H : _ /\ _ |- _ => destruct H
         | H : _ \/ _ |- _ => destruct H
         | H : In _ _ |- _ => simpl in H
         | H : False |- _ => destruct H
         end;
  subst; simpl in *;
  repeat match goal with
         | |- context [if is_EmptyNode ?x then _ else _] => destruct (is_EmptyNode x)
         | |- context [if negb (is_EmptyNode ?x) then _ else _] => destruct (is_EmptyNode x); simpl negb
         end;
  simpl; rewrite ?forallb_app; simpl;
  repeat match goal with
         | H : _ && _ = true |- _ => apply andb_prop in H; destruct H
         | H : precedence_ok _ = true |- _ => rewrite H
         | H : forallb precedence_ok _ = true |- _ => rewrite H
         end;
  simpl;
  solve [ repeat split; try reflexivity; try assumption; try discriminate;
          rewrite ?andb_true_iff, ?Nat.leb_le; repeat split;
          try reflexivity; try assumption; try lia ].

Ltac vstep :=
  lazymatch goal with
  | |- wp (Parser.bind _ _) _ _ => apply wp_bind
  | |- wp (Parser.ret _) _ _ => apply wp_ret; cbv beta
  | |- wp (Parser.gets _) _ _ => apply wp_gets; cbv beta
  | |- wp (Parser.raise _) _ _ => exact I
  | |- wp Parser.stuck _ _ => exact I
  | |- wp (Grammar.error_at _ _) _ _ => exact I
  | |- wp (Grammar.parse_error _ _ _) _ _ => exact I
  | |- wp (if ?b then _ else _) _ _ => destruct b eqn:?
  | |- wp (match ?x with _ => _ end) _ _ => destruct x
  | |- wp _ _ _ =>
      first [ eapply wp_frame; [solve [eauto 2 with values] | intros ? ? ?; cbv beta]
            | eapply wp_frame;
              [match goal with H : forall _, _ |- _ => eapply H end; solve_value
              | intros ? ? ?; cbv beta]
            | eapply wp_frame; [apply frame_any | intros ? ? _; cbv beta] ]
  end.

Ltac vrun := repeat (cbv zeta; vstep).

Create HintDb values.
Hint Resolve value_accept_any : values.

Ltac open_body f :=
  unfold f, new_BooleanNode, new_IdNode, new_StringNode, new_FormatStringNode,
    new_MultilineFormatStringNode, new_str_node, new_NumberNode, new_ContinueNode,
    new_BreakNode, new_ArgumentNode, new_ArrayNode, new_DictNode, new_EmptyNode,
    new_OrNode, new_AndNode, new_ComparisonNode, new_ArithmeticNode, new_NotNode,
    new_IndexNode, new_MethodNode, new_FunctionNode, new_AssignmentNode,
    new_PlusAssignmentNode, new_ForeachClauseNode, new_IfNode, new_ParenthesizedNode,
    new_UMinusNode, new_TernaryNode, set_kwarg.

Lemma value_e9 : frame (Expr 9) Grammar.e9.
Proof. intros s. open_body Grammar.e9. vrun; solve_value. Qed.

Hint Resolve value_e9 : values.

Variable self : Self.t.
Hypothesis IH : respects self.

Lemma value_e4_for items left :
  Expr 5 left tt tt ->
  frame (fun r _ _ => match r with Some x => Expr 4 x tt tt | None => True end)
        (Grammar.e4_for self items left).
Proof.
  destruct IH. intros Hleft.
  induction items as [|[nodename operator_type] rest IHrest]; intros s; simpl.
  - vrun; solve_value.
  - open_body Grammar.e4_for. vrun; cbv beta in *;
      try match goal with r : option Node |- _ => destruct r end; solve_value.
Qed.

Ltac value_of f := intros s; open_body f; vrun; solve_value.

Lemma respects_step : respects (Grammar.step self).
Proof.
  destruct IH.
  constructor; simpl; intros.
  - value_of Grammar.statement.
  - value_of Grammar.e1.
  - value_of Grammar.e2.
  - value_of Grammar.e2_while.
  - value_of Grammar.e3.
  - value_of Grammar.e3_while.
  - pose proof value_e4_for as He4_for.
    intros s; open_body Grammar.e4; vrun; cbv beta in *;
      try match goal with r : option Node |- _ => destruct r end; solve_value.
  - value_of Grammar.e5.
  - value_of Grammar.e5addsub.
  - value_of Grammar.e5addsub_while.
  - value_of Grammar.e5muldiv.
  - value_of Grammar.e5muldiv_while.
  - value_of Grammar.e6.
  - value_of Grammar.e7.
  - value_of Grammar.e7_while.
  - value_of Grammar.e8.
  - value_of Grammar.key_values.
  - value_of Grammar.key_values_while.
  - value_of Grammar.args.
  - value_of Grammar.args_while.
  - value_of Grammar.method_call.
  - value_of Grammar.index_call.
  - value_of Grammar.foreachblock.
  - value_of Grammar.ifblock.
  - value_of Grammar.elseifblock.
  - value_of Grammar.elseblock.
  - value_of Grammar.line.
  - value_of Grammar.codeblock.
  - value_of Grammar.codeblock_while.
Qed.
End Respect.

Lemma respects_out_of_fuel : respects Grammar.out_of_fuel.
Proof. constructor; simpl; intros; intros s; exact I. Qed.

Lemma respects_methods fuel : respects (Grammar.methods fuel).
Proof.
  induction fuel as [|fuel IH]; simpl.
  - apply respects_out_of_fuel.
  - apply respects_step, IH.
Qed.

(** ** C8: operator precedence *)

(** C8.  ["1 + 2 * 3"] parses to the addition of 1 and the product of 2 and
    3, and ["not true and false"] to the conjunction of the negation of
    [true] and [false].  In general every node of every tree that [parse]
    returns is [tight]: the operands of a multiplicative node are never
    additive nodes (nor anything that binds more loosely), and the operand of
    [not] is never a conjunction (nor any other binary operation), unless
    parentheses say so. *)
Theorem C8_operator_precedence :
  (exists b0 b1 b2 b3 b4 b5 s,
      parse "1 + 2 * 3"
      = Ok (CodeBlockNode b0
              [ArithmeticNode b1 "add" (NumberNode b2 1)
                 (ArithmeticNode b3 "mul" (NumberNode b4 2) (NumberNode b5 3))], s))
  /\ (exists b0 b1 b2 b3 b4 s,
         parse "not true and false"
         = Ok (CodeBlockNode b0
                 [AndNode b1 (NotNode b2 (BooleanNode b3 true)) (BooleanNode b4 false)], s))
  /\ (forall fuel code filename block s,
         parse_fuel fuel code filename = Ok (block, s) -> precedence_ok block = true)
  /\ (forall b operation l r,
         tight (ArithmeticNode b operation l r) = true ->
         mem_str operation ["mod"; "mul"; "div"] = true ->
         (6 <= level l)%nat /\ (7 <= level r)%nat)
  /\ (forall b operation l r,
         tight (ArithmeticNode b operation l r) = true ->
         mem_str operation ["add"; "sub"] = true ->
         (5 <= level l)%nat /\ (6 <= level r)%nat)
  /\ (forall b v, tight (NotNode b v) = true -> (8 <= level v)%nat)
  /\ (forall b l r, tight (AndNode b l r) = true -> (3 <= level l)%nat /\ (4 <= level r)%nat).
Proof.
  split; [vm_compute; repeat eexists|].
  split; [vm_compute; repeat eexists|].
  assert (Hgroups : forall operation,
             mem_str operation ["add"; "sub"] = true ->
             mem_str operation ["mod"; "mul"; "div"] = false).
  { intros operation E. unfold mem_str in E. simpl in E.
    rewrite orb_false_r in E.
    apply orb_prop in E as [E|E]; apply String.eqb_eq in E; subst operation; reflexivity. }
  split; [|split; [|split; [|split]]].
  - intros fuel code filename block s Hparse. unfold parse_fuel in Hparse.
    destruct (ParserOps.init code filename) as [self| |]; try discriminate.
    unfold Attach.parse in Hparse. unfold Parser.bind at 1 in Hparse.
    destruct (Self.codeblock _ self) as [[blk self1]| |] eqn:Hblock; try discriminate.
    pose proof (wp_ok _ _ _ _ _ (r_codeblock _ (respects_methods fuel) self) Hblock)
      as [_ Hok].
    unfold Parser.bind in Hparse.
    destruct (ParserOps.expect "eof" self1) as [[u self2]| |]; try discriminate.
    simpl in Hparse.
    destruct (length (Parser.stack self2) =? 0)%nat; try discriminate.
    simpl in Hparse.
    destruct (Attach.attach_comments _ self2) as [[u' self3]| |]; try discriminate.
    injection Hparse as <- _. exact Hok.
  - intros b operation l r H Hmul. unfold tight, level in H. rewrite Hmul in H.
    destruct (mem_str operation ["add"; "sub"]) eqn:E.
    + rewrite (Hgroups _ E) in Hmul. discriminate.
    + apply andb_prop in H as [H _]. apply andb_prop in H as [Hl Hr].
      apply Nat.leb_le in Hl, Hr. split; assumption.
  - intros b operation l r H Hadd. unfold tight, level in H. rewrite Hadd in H.
    apply andb_prop in H as [H _]. apply andb_prop in H as [Hl Hr].
    apply Nat.leb_le in Hl, Hr. split; assumption.
  - intros b v H. unfold tight in H. apply Nat.leb_le in H. exact H.
  - intros b l r H. unfold tight in H. apply andb_prop in H as [Hl Hr].
    apply Nat.leb_le in Hl, Hr. split; assumption.
Qed.

Lemma C8_witness :
  exists block s,
    parse_fuel 100 "1 + 2 * 3" "meson.build" = Ok (block, s)
    /\ precedence_ok block = true.
Proof.
  let r := eval vm_compute in (parse_fuel 100 "1 + 2 * 3" "meson.build") in
  match r with
  | Ok (?b, ?s) =>
      exists b, s;
      assert (E : parse_fuel 100 "1 + 2 * 3" "meson.build" = Ok (b, s))
        by (vm_compute; reflexivity);
      exact (conj E (proj1 (proj2 (proj2 C8_operator_precedence)) _ _ _ _ _ E))
  end.
Defined.
